(** * Date tasks: a shallow embedding of [task/03-date-tasks.js]

    The module exports five functions over JavaScript strings, numbers and
    [Date] objects.  Each of them is embedded below as a Rocq function in a
    small state-and-exception monad over a heap of [Date] objects, next to a
    model of the parts of the platform (ECMA-262) the functions call:
    literal regular expressions, [Number.prototype.toString], the time-value
    arithmetic of [Date] and IEEE-754 doubles.

    What the model leaves to its parameters or out:
    - [Date.parse] and the offset of local time are parameters of the
      functions that use them;
    - a [Date] argument is a [Date] object with a valid time value, which
      [new Date(date)] copies; invalid dates (NaN) are not modelled;
    - the Numbers of [timeSpanToString] are integers, with the rounding of
      the one operation that can round; those of [angleBetweenClockHands]
      are doubles, read a second time in exact real arithmetic. *)

From Stdlib Require Import ZArith Lia List Bool Ascii String DecimalString.
From Stdlib Require Import DecimalZ.
From Stdlib Require Import QArith Floats Reals Qreals Lra Machin.
Import ListNotations.

Local Open Scope string_scope.
Local Open Scope Z_scope.

(** ** Strings and the regular expressions the source uses *)

Module JsString.

(** A string is a sequence of characters, of which the source tells apart
    only "G", "M", "T", "+" and the decimal digits.

    One position of a pattern: a literal character or a character class
    such as [[0-9]]. *)
Inductive atom : Type :=
| Lit (c : ascii)
| Class (cs : list ascii).

(** The patterns of the source are sequences of atoms (a quantifier [{4}]
    is four copies of its atom), optionally closed by [$].  Without the
    [m] flag [$] matches at the end of the input only. *)
Record regexp : Type := mkRegexp
  { atoms : list atom;
    anchoredAtEnd : bool }.

Definition digits : list ascii :=
  ["0"; "1"; "2"; "3"; "4"; "5"; "6"; "7"; "8"; "9"]%char.

Definition isDigit (c : ascii) : bool :=
  existsb (Ascii.eqb c) digits.

Definition atomMatches (a : atom) (c : ascii) : bool :=
  match a with
  | Lit x => Ascii.eqb x c
  | Class cs => existsb (Ascii.eqb c) cs
  end.

(** Does the pattern match starting at the head of [s]? *)
Fixpoint matchHere (p : list atom) (atEnd : bool) (s : string) : bool :=
  match p with
  | [] => if atEnd then
            match s with EmptyString => true | String _ _ => false end
          else true
  | a :: p' =>
      match s with
      | EmptyString => false
      | String c s' => atomMatches a c && matchHere p' atEnd s'
      end
  end.

(** Index of the leftmost match at or after offset [i], [-1] when there is
    none: the result of [String.prototype.search]. *)
Fixpoint searchFrom (r : regexp) (s : string) (i : Z) : Z :=
  if matchHere (atoms r) (anchoredAtEnd r) s then i
  else match s with
       | EmptyString => -1
       | String _ s' => searchFrom r s' (i + 1)
       end.

Definition search (s : string) (r : regexp) : Z := searchFrom r s 0.

(** [RegExp.prototype.test]: is there a match anywhere in [s]? *)
Fixpoint test (r : regexp) (s : string) : bool :=
  matchHere (atoms r) (anchoredAtEnd r) s
  || match s with
     | EmptyString => false
     | String _ s' => test r s'
     end.

(** ['GMT'], converted to a regular expression by [search]. *)
Definition re_GMT : regexp :=
  mkRegexp [Lit "G"; Lit "M"; Lit "T"]%char false.

(** [/GMT\+[0-9]{4}$/] *)
Definition re_GMT_plus_offset_end : regexp :=
  mkRegexp [Lit "G"; Lit "M"; Lit "T"; Lit "+";
            Class digits; Class digits; Class digits; Class digits]%char
           true.

(** [/GMT$/] *)
Definition re_GMT_end : regexp :=
  mkRegexp [Lit "G"; Lit "M"; Lit "T"]%char true.

(** [/GMT[+-][0-9]{4}/]: "GMT" followed by a signed four-digit offset,
    the pattern the specification's wording describes. *)
Definition re_GMT_signed_offset : regexp :=
  mkRegexp [Lit "G"; Lit "M"; Lit "T"; Class ["+"; "-"];
            Class digits; Class digits; Class digits; Class digits]%char
           false.

End JsString.

(** ** Numbers *)

Module JsNumber.

(** The integer-valued Numbers of the time-span code are modelled by [Z].
    [%] is the truncating remainder ([Z.rem], sign of the dividend) and
    every [/] of the source divides exactly (lemmas [seconds_exact],
    [minutes_exact] and [hours_exact] below), so it is [Z.quot].  A zero is
    only ever compared with 0 and 10 or printed, where -0 behaves as 0.
    The one operation that can round is the subtraction of two time
    values, whose difference may need more than 53 bits (lemma
    [hours_dividend_representable]). *)

(** Round to nearest, ties to even, to a 53-bit significand. *)
Definition roundToDouble (z : Z) : Z :=
  let a := Z.abs z in
  if a <=? 2 ^ 53 then z
  else
    let e := Z.log2 a - 52 in
    let q := Z.shiftr a e in
    let r := Z.land a (Z.ones e) in
    let half := 2 ^ (e - 1) in
    let q' := if (half <? r) || ((r =? half) && Z.odd q) then q + 1 else q in
    Z.sgn z * (q' * 2 ^ e).

Definition sub (a b : Z) : Z := roundToDouble (a - b).

(** [Number.prototype.toString] on an integer of magnitude below 1e21:
    its decimal digits, with a leading "-" when negative. *)
Definition toString (z : Z) : string :=
  NilZero.string_of_int (Z.to_int z).

(** The result of [Date.parse]: a time value or NaN. *)
Inductive timeValue : Type :=
| NaN
| Time (t : Z).

End JsNumber.

(** ** Time values (ECMA-262, "Time Values and Time Range") *)

Module JsTime.

Definition msPerDay : Z := 86400000.
Definition msPerHour : Z := 3600000.
Definition msPerMinute : Z := 60000.

Definition Day (t : Z) : Z := t / msPerDay.

Definition HourFromTime (t : Z) : Z := (t / msPerHour) mod 24.

Definition MinFromTime (t : Z) : Z := (t / msPerMinute) mod 60.

Definition DayFromYear (y : Z) : Z :=
  365 * (y - 1970) + (y - 1969) / 4 - (y - 1901) / 100 + (y - 1601) / 400.

Definition TimeFromYear (y : Z) : Z := msPerDay * DayFromYear y.

(** The largest year [y] with [TimeFromYear y <= t], found next to the
    estimate given by the 400-year cycle of 146097 days. *)
Definition YearFromTime (t : Z) : Z :=
  let y0 := 1970 + (400 * Day t) / 146097 in
  if TimeFromYear (y0 + 1) <=? t then y0 + 1
  else if TimeFromYear y0 <=? t then y0
  else y0 - 1.

End JsTime.

(** ** Date objects, the heap and the monad of the embedding *)

Module JsHeap.

(** A [Date] object is a heap cell holding its time value (milliseconds
    since the epoch); a reference to it is the index of the cell.  Invalid
    dates (time value NaN) are outside the model. *)
Definition loc : Type := nat.
Definition heap : Type := list Z.

Inductive error : Type :=
| TypeError.

Inductive completion (A : Type) : Type :=
| Normal (a : A)
| Throw (e : error).
Arguments Normal {A} a.
Arguments Throw {A} e.

(** A computation reads and extends the heap and may throw. *)
Definition M (A : Type) : Type := heap -> completion (A * heap).

Definition ret {A : Type} (a : A) : M A := fun h => Normal (a, h).

Definition bind {A B : Type} (c : M A) (k : A -> M B) : M B :=
  fun h => match c h with
           | Normal (a, h') => k a h'
           | Throw e => Throw e
           end.

(** The time value of the [Date] object at [d]; a reference that denotes
    no [Date] object is a TypeError. *)
Definition thisTimeValue (d : loc) : M Z :=
  fun h => match nth_error h d with
           | Some t => Normal (t, h)
           | None => Throw TypeError
           end.

(** Allocation of a fresh [Date] object. *)
Definition alloc (t : Z) : M loc :=
  fun h => Normal (List.length h, (h ++ [t])%list).

Definition isDate (h : heap) (d : loc) : Prop := (d < List.length h)%nat.

(** [h'] keeps every object of [h] as it is (and may hold new ones). *)
Definition extends (h h' : heap) : Prop :=
  forall d t, nth_error h d = Some t -> nth_error h' d = Some t.

End JsHeap.

Export JsHeap.

Notation "x <- c ;; k" := (bind c (fun x => k))
  (at level 61, c at next level, right associativity).

(** ** Arithmetic on non-integer Numbers *)

(** [angleBetweenClockHands] divides by 60 and multiplies by [Math.PI], so
    its Numbers are not integers.  The function is written once over the
    operations it uses and read at two instances: IEEE-754 binary64, which
    is what the program computes, and the real numbers, which is the exact
    arithmetic the specification speaks in. *)
Class Arith (A : Type) : Type :=
  { num : Z -> A;
    add : A -> A -> A;
    sub : A -> A -> A;
    mul : A -> A -> A;
    div : A -> A -> A;
    abs : A -> A;
    gt : A -> A -> bool;
    Math_PI : A }.

Declare Scope js_scope.
Delimit Scope js_scope with js.
Infix "+" := add : js_scope.
Infix "-" := sub : js_scope.
Infix "*" := mul : js_scope.
Infix "/" := div : js_scope.
Infix ">?" := gt (at level 70, no associativity) : js_scope.

Module Double.

(** The double of an integer of magnitude below 2^53. *)
Definition ofZ (z : Z) : float :=
  if z <? 0 then PrimFloat.opp (PrimFloat.of_uint63 (Uint63.of_Z (- z)))
  else PrimFloat.of_uint63 (Uint63.of_Z z).

(** [Math.PI], the double nearest to pi. *)
Definition PI : float := 0x1.921fb54442d18p+1%float.

(** The rational a finite double stands for. *)
Definition toQ (f : float) : option Q :=
  match Prim2SF f with
  | S754_zero _ => Some 0%Q
  | S754_finite s m e =>
      let v := (inject_Z (Z.pos m) * Qpower 2 e)%Q in
      Some (Qred (if s then Qopp v else v))
  | S754_infinity _ => None
  | S754_nan => None
  end.

End Double.

#[export] Instance ArithDouble : Arith float :=
  { num := Double.ofZ;
    add := PrimFloat.add;
    sub := PrimFloat.sub;
    mul := PrimFloat.mul;
    div := PrimFloat.div;
    abs := PrimFloat.abs;
    gt := fun x y => PrimFloat.ltb y x;
    Math_PI := Double.PI }.

#[export] Instance ArithReal : Arith R :=
  { num := IZR;
    add := Rplus;
    sub := Rminus;
    mul := Rmult;
    div := Rdiv;
    abs := Rabs;
    gt := fun x y => if Rlt_dec y x then true else false;
    Math_PI := Rtrigo1.PI }.

(** ** The five exported functions *)

Section DateTasks.

(** The environment of a call: the platform's generic date-string parser
    [Date.parse], which returns NaN for a string it does not recognise,
    and the offset of local time from UTC at a given instant. *)
Variable Date_parse : string -> JsNumber.timeValue.
Variable LocalTZA : Z -> Z.

(** *** Methods of [Date] *)

Definition LocalTime (t : Z) : Z := t + LocalTZA t.

(** [new Date(date)] for a [Date] object [date]: a fresh object with the
    same time value. *)
Definition new_Date (date : loc) : M loc :=
  tv <- thisTimeValue date ;;
  alloc tv.

Definition getTime (date : loc) : M Z :=
  thisTimeValue date.

Definition getFullYear (date : loc) : M Z :=
  t <- thisTimeValue date ;;
  ret (JsTime.YearFromTime (LocalTime t)).

Definition getUTCHours (date : loc) : M Z :=
  t <- thisTimeValue date ;;
  ret (JsTime.HourFromTime t).

Definition getUTCMinutes (date : loc) : M Z :=
  t <- thisTimeValue date ;;
  ret (JsTime.MinFromTime t).

(** *** parseDataFromRfc2822 *)

(** The string handed to [Date.parse]: the value of [value] after the
    conditional [value += '00']. *)
Definition rfc2822Argument (value : string) : string :=
  if negb (JsString.search value JsString.re_GMT =? -1)
     && negb (JsString.test JsString.re_GMT_plus_offset_end value)
     && negb (JsString.test JsString.re_GMT_end value)
  then value ++ "00"
  else value.

Definition parseDataFromRfc2822 (value : string) : M JsNumber.timeValue :=
  let value := rfc2822Argument value in
  ret (Date_parse value).

(** *** parseDataFromIso8601 *)

Definition parseDataFromIso8601 (value : string) : M JsNumber.timeValue :=
  ret (Date_parse value).

(** *** isLeapYear *)

Definition isLeapYear (date : loc) : M bool :=
  thisDate <- new_Date date ;;
  year <- getFullYear thisDate ;;
  if Z.rem year 400 =? 0 then ret true
  else if negb (Z.rem year 100 =? 0) && (Z.rem year 4 =? 0) then ret true
  else ret false.

(** *** timeSpanToString *)

(** A variable of the function holds a Number or, once padded, a String. *)
Inductive numberOrString : Type :=
| VNumber (z : Z)
| VString (s : string).

(** The conversion a template literal applies to its substitutions. *)
Definition ToString (v : numberOrString) : string :=
  match v with
  | VNumber z => JsNumber.toString z
  | VString s => s
  end.

(** The arms of the last conditional of the function, on [ms]. *)
Inductive msBranch : Type :=
| MsIsZero        (* ms === 0 *)
| MsBelow100      (* else if (ms < 100) *)
| MsBelow10       (* else if (ms < 10) *)
| MsNoBranch.     (* no arm taken *)

Definition msBranchOf (ms : Z) : msBranch :=
  if ms =? 0 then MsIsZero
  else if ms <? 100 then MsBelow100
  else if ms <? 10 then MsBelow10
  else MsNoBranch.

(** The body of the function from [var ms] on, given [span]. *)
Definition formatSpan (span : Z) : string :=
  let HOUR_MS := 3600000 in
  let MINUTE_MS := 60000 in
  let SECOND_MS := 1000 in
  let ms := Z.rem span SECOND_MS in
  let seconds := Z.quot (Z.rem span MINUTE_MS - ms) SECOND_MS in
  let minutes :=
    Z.quot (Z.rem span HOUR_MS - seconds * SECOND_MS - ms) MINUTE_MS in
  let hours := Z.quot (span - Z.rem span HOUR_MS) HOUR_MS in
  let hours :=
    if hours =? 0 then VString "00"
    else if hours <? 10 then VString ("0" ++ JsNumber.toString hours)
    else VNumber hours in
  let minutes :=
    if minutes =? 0 then VString "00"
    else if minutes <? 10 then VString ("0" ++ JsNumber.toString minutes)
    else VNumber minutes in
  let seconds :=
    if seconds =? 0 then VString "00"
    else if seconds <? 10 then VString ("0" ++ JsNumber.toString seconds)
    else VNumber seconds in
  let '(hours, ms) :=
    match msBranchOf ms with
    | MsIsZero => (hours, VString "000")
    | MsBelow100 => (VString ("0" ++ JsNumber.toString ms), VNumber ms)
    | MsBelow10 => (VString ("00" ++ JsNumber.toString ms), VNumber ms)
    | MsNoBranch => (hours, VNumber ms)
    end in
  ToString hours ++ ":" ++ ToString minutes ++ ":" ++ ToString seconds
    ++ "." ++ ToString ms.

Definition timeSpanToString (startDate endDate : loc) : M string :=
  start <- new_Date startDate ;;
  end_ <- new_Date endDate ;;
  tEnd <- getTime end_ ;;
  tStart <- getTime start ;;
  let span := JsNumber.sub tEnd tStart in
  ret (formatSpan span).

(** *** angleBetweenClockHands *)

(** The body of the function from [var minutesArrowAngle] on.
    [getUTCHours] and [getUTCMinutes] return integers, on which
    [Number.parseFloat] (of their decimal string) is the identity and [%]
    is exact: [hours % 12] is taken on the integer and then injected. *)
Definition clockAngle {A : Type} `{Arith A} (hours minutes : Z) : A :=
  let minutesArrowAngle := (num minutes * num 360 / num 60)%js in
  let hoursArrowAngle :=
    ((num (Z.rem hours 12) + num minutes / num 60)
     * num 360 / num 12)%js in
  let angle := abs (hoursArrowAngle - minutesArrowAngle)%js in
  let angle := if (angle >? num 180)%js then (num 360 - angle)%js
               else angle in
  (angle * Math_PI / num 180)%js.

Definition angleBetweenClockHands {A : Type} `{Arith A} (date : loc) : M A :=
  hours <- getUTCHours date ;;
  minutes <- getUTCMinutes date ;;
  ret (clockAngle hours minutes).

End DateTasks.

(** ** The parsers on any argument, over a parser that may throw *)

(** The two parsers once more, with what the embedding above fixes by its
    types left open: the argument is any primitive a caller may pass where a
    string is expected ([undefined], [null], a Boolean or a String; Numbers,
    Symbols and objects are left out), and [Date.parse] is an operation of
    the platform like any other, which may throw and may read or change the
    heap. *)
Module Dynamic.

Inductive jsValue : Type :=
| JsUndefined
| JsNull
| JsBoolean (b : bool)
| JsString (s : string).

(** The abstract operation ToString on these primitives. *)
Definition ToString (v : jsValue) : string :=
  match v with
  | JsUndefined => "undefined"
  | JsNull => "null"
  | JsBoolean true => "true"
  | JsBoolean false => "false"
  | JsString s => s
  end.

(** [value.search(r)]: a String has the method; [undefined] and [null]
    have no properties and a Boolean has no [search], which makes the call a
    TypeError. *)
Definition search (value : jsValue) (r : JsString.regexp) : M Z :=
  match value with
  | JsString s => ret (JsString.search s r)
  | JsUndefined | JsNull | JsBoolean _ => fun _ => Throw TypeError
  end.

(** [r.test(value)] matches against the string of its argument. *)
Definition test (r : JsString.regexp) (value : jsValue) : bool :=
  JsString.test r (ToString value).

Section Parsers.

Variable Date_parse : string -> M JsNumber.timeValue.

Definition parseDataFromRfc2822 (value : jsValue) : M JsNumber.timeValue :=
  found <- search value JsString.re_GMT ;;
  let value :=
    if negb (found =? -1)
       && negb (test JsString.re_GMT_plus_offset_end value)
       && negb (test JsString.re_GMT_end value)
    then JsString (ToString value ++ "00")
    else value in
  Date_parse (ToString value).

Definition parseDataFromIso8601 (value : jsValue) : M JsNumber.timeValue :=
  Date_parse (ToString value).

End Parsers.

End Dynamic.

(** ** Readings of the specification *)

(** The condition under which, in the specification's words, "00" is
    appended: the string contains "GMT", "GMT" is not already followed by a
    four-digit numeric offset (of either sign), and the string does not end
    in a bare "GMT". *)
Definition claimedAppendCondition (value : string) : bool :=
  negb (JsString.search value JsString.re_GMT =? -1)
  && negb (JsString.test JsString.re_GMT_signed_offset value)
  && negb (JsString.test JsString.re_GMT_end value).

Definition containsGMT (value : string) : Prop :=
  exists pre post, value = pre ++ "GMT" ++ post.

Definition endsWithGMT (value : string) : Prop :=
  exists pre, value = pre ++ "GMT".

(** The string ends with "GMT+" and exactly four decimal digits after it. *)
Definition endsWithGMTPlusFourDigits (value : string) : Prop :=
  exists pre d1 d2 d3 d4,
    JsString.isDigit d1 = true /\ JsString.isDigit d2 = true /\
    JsString.isDigit d3 = true /\ JsString.isDigit d4 = true /\
    value = pre ++ "GMT+" ++ String d1 (String d2 (String d3 (String d4 ""))).

(** The leap-year algorithm of the specification: divisible by 400, leap;
    else divisible by 100, not leap; else divisible by 4, leap; else not. *)
Definition leapYearAlgorithm (Y : Z) : bool :=
  if Y mod 400 =? 0 then true
  else if Y mod 100 =? 0 then false
  else if Y mod 4 =? 0 then true
  else false.

(** Time values range over 8.64e15 ms on either side of the epoch; a Number
    is representable when rounding leaves it as it is. *)
Definition validTime (t : Z) : Prop := Z.abs t <= 8640000000000000.

Definition representable (z : Z) : Prop := JsNumber.roundToDouble z = z.

(** The duration string of the specification: the span decomposed by
    integer division and modulo into hours (no cap), minutes, seconds and
    milliseconds, each padded with leading zeros to its width. *)
Fixpoint zeros (n : nat) : string :=
  match n with
  | O => ""
  | S n' => String "0" (zeros n')
  end.

Definition zeroPad (width : nat) (n : Z) : string :=
  let s := JsNumber.toString n in
  zeros (width - String.length s) ++ s.

Definition formatTimeSpanSpec (span : Z) : string :=
  let hours := span / 3600000 in
  let minutes := (span / 60000) mod 60 in
  let seconds := (span / 1000) mod 60 in
  let ms := span mod 1000 in
  zeroPad 2 hours ++ ":" ++ zeroPad 2 minutes ++ ":" ++ zeroPad 2 seconds
    ++ "." ++ zeroPad 3 ms.

(** Does padding [n] to two and to three digits agree with comparing it
    with 10 and 100? *)
Definition padsAsCompared (n : nat) : bool :=
  let z := Z.of_nat n in
  (String.eqb (zeroPad 2 z)
              (if z <? 10 then "0" ++ JsNumber.toString z
               else JsNumber.toString z)
   || (100 <=? z))
  && String.eqb (zeroPad 3 z)
                (if z <? 10 then "00" ++ JsNumber.toString z
                 else if z <? 100 then "0" ++ JsNumber.toString z
                 else JsNumber.toString z).

(** No ":" occurs in the string. *)
Fixpoint colonFree (s : string) : bool :=
  match s with
  | EmptyString => true
  | String c s' => negb (Ascii.eqb c ":") && colonFree s'
  end.

(** The clock angle as the specification computes it, in exact
    arithmetic: the minute hand at [m * 6] degrees, the hour hand at
    [((h mod 12) + m / 60) * 30] degrees, their absolute difference, replaced
    by 360 minus itself above 180, times pi/180. *)
Definition clockAngleSpec (h m : Z) : R :=
  let minuteHand := (IZR m * 6)%R in
  let hourHand := ((IZR (h mod 12) + IZR m / 60) * 30)%R in
  let difference := Rabs (hourHand - minuteHand) in
  let difference :=
    if Rlt_dec 180 difference then (360 - difference)%R else difference in
  (difference * (Rtrigo1.PI / 180))%R.

(** The angle between the hands in half degrees, an integer. *)
Definition halfDegrees (hours minutes : Z) : Z :=
  let d := Z.abs (60 * Z.rem hours 12 - 11 * minutes) in
  if 360 <? d then 720 - d else d.

(** ** Rational bounds on pi *)

Module PiBounds.

Fixpoint qpow (q : Q) (n : nat) : Q :=
  match n with
  | O => 1%Q
  | S n' => (q * qpow q n')%Q
  end.

(** The terms and partial sums of Machin's series
    pi/4 = 2 atan(1/3) + atan(1/7). *)
Definition term (i : nat) : Q :=
  let k := (2 * i + 1)%nat in
  (qpow (-1) i
   * (2 * (qpow (1 # 3) k / inject_Z (Z.of_nat k))
      + qpow (1 # 7) k / inject_Z (Z.of_nat k)))%Q.

Fixpoint partialSum (n : nat) : Q :=
  match n with
  | O => term 0
  | S n' => (partialSum n' + term (S n'))%Q
  end.

Definition lower : Q := Qred (4 * partialSum 21)%Q.
Definition upper : Q := Qred (4 * partialSum 20)%Q.

End PiBounds.

(** The hours and minutes of a day; the bound on the rounding error of the
    double computation of the angle. *)
Definition clockTimes : list (Z * Z) :=
  list_prod (map Z.of_nat (seq 0 24)) (map Z.of_nat (seq 0 60)).

Definition roundingBound : Q := (1 # 2 ^ 49)%Q.

(** Is the double computed for the time [hm] finite, between 0 and
    [Math.PI], and within [roundingBound] of [halfDegrees * pi / 360], for
    any pi between the two rational bounds? *)
Definition doubleAngleChecks (hm : Z * Z) : bool :=
  let '(hours, minutes) := hm in
  match Double.toQ (clockAngle hours minutes) with
  | Some q =>
      let d := inject_Z (halfDegrees hours minutes) in
      Qle_bool 0 q
      && match Double.toQ Double.PI with
         | Some p => Qle_bool q p
         | None => false
         end
      && Qle_bool (q - roundingBound) (d * PiBounds.lower / 360)
      && Qle_bool (d * PiBounds.upper / 360) (q + roundingBound)
  | None => false
  end.

(** The string ends with "GMT", the sign and exactly two decimal digits. *)
Definition endsWithGMTSignTwoDigits (sign : ascii) (value : string) : Prop :=
  exists pre d1 d2,
    JsString.isDigit d1 = true /\ JsString.isDigit d2 = true /\
    value = pre ++ "GMT" ++ String sign (String d1 (String d2 "")).

(** Does the double computed for the time [hm] compare equal ([===]) to 0
    exactly at 0:00 and 12:00, and to [Math.PI] exactly at 6:00 and 18:00? *)
Definition doubleExtremesCheck (hm : Z * Z) : bool :=
  let '(hours, minutes) := hm in
  let r : float := clockAngle hours minutes in
  Bool.eqb (PrimFloat.eqb r 0%float)
           ((Z.rem hours 12 =? 0) && (minutes =? 0))
  && Bool.eqb (PrimFloat.eqb r Double.PI)
              ((Z.rem hours 12 =? 6) && (minutes =? 0)).

(** The Number a string of decimal digits stands for, leading zeros
    allowed. *)
Definition decimalValue (s : string) : option Z :=
  option_map Z.of_uint (NilEmpty.uint_of_string s).

(** * Properties *)

(** ** Regular expressions *)

Lemma test_iff_suffix_matches (r : JsString.regexp) (s : string) :
  JsString.test r s = true <->
  exists pre post,
    s = pre ++ post /\
    JsString.matchHere (JsString.atoms r) (JsString.anchoredAtEnd r) post = true.
Proof.
  induction s as [|c s IH]; simpl.
  - rewrite orb_false_r. split.
    + intros Hm. exists "", "". split; [reflexivity | exact Hm].
    + intros (pre & post & Heq & Hm).
      destruct pre; [|discriminate]. simpl in Heq. subst post. exact Hm.
  - rewrite orb_true_iff, IH. split.
    + intros [Hm | (pre & post & Heq & Hm)].
      * exists "", (String c s). split; [reflexivity | exact Hm].
      * exists (String c pre), post. split; [simpl; now rewrite Heq | exact Hm].
    + intros (pre & post & Heq & Hm). destruct pre as [|c' pre].
      * left. simpl in Heq. now rewrite Heq.
      * right. simpl in Heq. injection Heq as _ Heq.
        exists pre, post. split; assumption.
Qed.

Lemma searchFrom_found_iff_test (r : JsString.regexp) (s : string) (i : Z) :
  0 <= i ->
  negb (JsString.searchFrom r s i =? -1) = JsString.test r s.
Proof.
  revert i. induction s as [|c s IH]; intros i Hi; simpl.
  - destruct JsString.matchHere; simpl.
    + destruct (Z.eqb_spec i (-1)); [lia | reflexivity].
    + reflexivity.
  - destruct JsString.matchHere; simpl.
    + destruct (Z.eqb_spec i (-1)); [lia | reflexivity].
    + apply IH. lia.
Qed.

Lemma search_found_iff_test (r : JsString.regexp) (s : string) :
  negb (JsString.search s r =? -1) = JsString.test r s.
Proof. apply searchFrom_found_iff_test. lia. Qed.

(** Unfold a match against one of the patterns of the source without
    computing the character comparisons. *)
Ltac unfold_match :=
  cbn [JsString.matchHere JsString.atoms JsString.atomMatches
       JsString.re_GMT JsString.re_GMT_end JsString.re_GMT_plus_offset_end
       JsString.re_GMT_signed_offset].

Lemma matchHere_GMT_prefix (post : string) :
  JsString.matchHere (JsString.atoms JsString.re_GMT) false post = true <->
  exists rest, post = "GMT" ++ rest.
Proof.
  destruct post as [|c1 [|c2 [|c3 rest]]]; unfold_match;
    try (split; [intros H; rewrite ?andb_false_r in H; discriminate
                | intros [rest' H]; discriminate]).
  rewrite !andb_true_iff, !Ascii.eqb_eq. split.
  - intros (<- & <- & <- & _). now exists rest.
  - intros [rest' H]. injection H as <- <- <- _. auto.
Qed.

Lemma matchHere_GMT_end (post : string) :
  JsString.matchHere (JsString.atoms JsString.re_GMT_end) true post = true <->
  post = "GMT".
Proof.
  destruct post as [|c1 [|c2 [|c3 [|c4 rest]]]]; unfold_match;
    try (split; [intros H; rewrite ?andb_false_r in H; discriminate
                | intros H; discriminate]).
  rewrite !andb_true_iff, !Ascii.eqb_eq. split.
  - intros (<- & <- & <- & _). reflexivity.
  - intros H. injection H as <- <- <-. auto.
Qed.

Lemma matchHere_GMT_plus_offset_end (post : string) :
  JsString.matchHere (JsString.atoms JsString.re_GMT_plus_offset_end) true post
  = true <->
  exists d1 d2 d3 d4,
    JsString.isDigit d1 = true /\ JsString.isDigit d2 = true /\
    JsString.isDigit d3 = true /\ JsString.isDigit d4 = true /\
    post = "GMT+" ++ String d1 (String d2 (String d3 (String d4 ""))).
Proof.
  destruct post as [|c1 [|c2 [|c3 [|c4 [|c5 [|c6 [|c7 [|c8 [|c9 rest]]]]]]]]];
    unfold_match;
    try (split; [intros H; rewrite ?andb_false_r in H; discriminate
                | intros (d1 & d2 & d3 & d4 & _ & _ & _ & _ & H); discriminate]).
  fold (JsString.isDigit c5) (JsString.isDigit c6)
       (JsString.isDigit c7) (JsString.isDigit c8).
  rewrite !andb_true_iff, !Ascii.eqb_eq. split.
  - intros (<- & <- & <- & <- & H5 & H6 & H7 & H8 & _).
    exists c5, c6, c7, c8. auto.
  - intros (d1 & d2 & d3 & d4 & H1 & H2 & H3 & H4 & H).
    injection H as <- <- <- <- <- <- <- <-. auto 10.
Qed.

Lemma test_GMT_iff (value : string) :
  JsString.test JsString.re_GMT value = true <-> containsGMT value.
Proof.
  rewrite test_iff_suffix_matches. unfold containsGMT. split.
  - intros (pre & post & -> & Hm).
    apply matchHere_GMT_prefix in Hm as [rest ->]. now exists pre, rest.
  - intros (pre & rest & ->). exists pre, ("GMT" ++ rest).
    split; [reflexivity|]. apply matchHere_GMT_prefix. now exists rest.
Qed.

Lemma test_GMT_end_iff (value : string) :
  JsString.test JsString.re_GMT_end value = true <-> endsWithGMT value.
Proof.
  rewrite test_iff_suffix_matches. unfold endsWithGMT. split.
  - intros (pre & post & -> & Hm).
    apply matchHere_GMT_end in Hm as ->. now exists pre.
  - intros (pre & ->). exists pre, "GMT".
    split; [reflexivity|]. now apply matchHere_GMT_end.
Qed.

Lemma test_GMT_plus_offset_end_iff (value : string) :
  JsString.test JsString.re_GMT_plus_offset_end value = true <->
  endsWithGMTPlusFourDigits value.
Proof.
  rewrite test_iff_suffix_matches. unfold endsWithGMTPlusFourDigits. split.
  - intros (pre & post & -> & Hm).
    apply matchHere_GMT_plus_offset_end in Hm
      as (d1 & d2 & d3 & d4 & H1 & H2 & H3 & H4 & ->).
    exists pre, d1, d2, d3, d4. auto 10.
  - intros (pre & d1 & d2 & d3 & d4 & H1 & H2 & H3 & H4 & ->).
    eexists pre, _. split; [reflexivity|].
    apply matchHere_GMT_plus_offset_end. exists d1, d2, d3, d4. auto 10.
Qed.

Lemma length_of_append (s t : string) :
  String.length (s ++ t) = (String.length s + String.length t)%nat.
Proof. induction s as [|c s IH]; simpl; congruence. Qed.

Lemma append_two_zeros_changes (value : string) : value ++ "00" <> value.
Proof.
  intros H. apply (f_equal String.length) in H.
  rewrite length_of_append in H. simpl in H. lia.
Qed.

(** "00" is appended exactly when the three tests of the source succeed. *)
Lemma rfc2822Argument_appends_iff (value : string) :
  rfc2822Argument value = value ++ "00" <->
  containsGMT value /\ ~ endsWithGMTPlusFourDigits value /\ ~ endsWithGMT value.
Proof.
  unfold rfc2822Argument.
  rewrite <- test_GMT_iff, <- test_GMT_plus_offset_end_iff, <- test_GMT_end_iff.
  rewrite search_found_iff_test.
  destruct (JsString.test JsString.re_GMT value),
           (JsString.test JsString.re_GMT_plus_offset_end value),
           (JsString.test JsString.re_GMT_end value); simpl;
    (split;
     [ intros H; try (symmetry in H; now apply append_two_zeros_changes in H);
       repeat split; auto; discriminate
     | intros (H1 & H2 & H3); try reflexivity; try discriminate;
       try (now exfalso; apply H2); try (now exfalso; apply H3) ]).
Qed.

Lemma rfc2822Argument_cases (value : string) :
  rfc2822Argument value = value ++ "00" \/ rfc2822Argument value = value.
Proof. unfold rfc2822Argument. destruct (_ && _); auto. Qed.

(** ** The heap *)

Lemma isDate_lookup (h : heap) (d : loc) :
  isDate h d <-> exists t, nth_error h d = Some t.
Proof.
  unfold isDate. rewrite <- nth_error_Some. split.
  - destruct (nth_error h d) as [t|]; [now exists t | congruence].
  - intros [t ->]. discriminate.
Qed.

Lemma extends_refl (h : heap) : extends h h.
Proof. intros d t H. exact H. Qed.

Lemma extends_trans (h1 h2 h3 : heap) :
  extends h1 h2 -> extends h2 h3 -> extends h1 h3.
Proof. intros H12 H23 d t H. auto. Qed.

Lemma extends_app (h new : heap) : extends h (h ++ new)%list.
Proof.
  intros d t H. rewrite nth_error_app1; [exact H|].
  apply nth_error_Some. congruence.
Qed.

Lemma lookup_fresh (h : heap) (t : Z) :
  nth_error (h ++ [t])%list (List.length h) = Some t.
Proof. rewrite nth_error_app2, Nat.sub_diag by lia. reflexivity. Qed.

Lemma thisTimeValue_run (h : heap) (d : loc) (t : Z) :
  nth_error h d = Some t -> thisTimeValue d h = Normal (t, h).
Proof. unfold thisTimeValue. now intros ->. Qed.

Lemma new_Date_run (h : heap) (d : loc) (t : Z) :
  nth_error h d = Some t ->
  new_Date d h = Normal (List.length h, (h ++ [t])%list).
Proof.
  intros H. unfold new_Date, bind. now rewrite (thisTimeValue_run h d t H).
Qed.

(** ** What each function returns and how it leaves the heap *)

Lemma parseDataFromRfc2822_run Date_parse (value : string) (h : heap) :
  parseDataFromRfc2822 Date_parse value h
  = Normal (Date_parse (rfc2822Argument value), h).
Proof. reflexivity. Qed.

Lemma parseDataFromIso8601_run Date_parse (value : string) (h : heap) :
  parseDataFromIso8601 Date_parse value h = Normal (Date_parse value, h).
Proof. reflexivity. Qed.

Lemma isLeapYear_run LocalTZA (h : heap) (date : loc) (t : Z) :
  nth_error h date = Some t ->
  let year := JsTime.YearFromTime (LocalTime LocalTZA t) in
  isLeapYear LocalTZA date h
  = Normal ((Z.rem year 400 =? 0)
            || negb (Z.rem year 100 =? 0) && (Z.rem year 4 =? 0),
            (h ++ [t])%list).
Proof.
  intros H year. unfold isLeapYear, bind.
  rewrite (new_Date_run h date t H).
  unfold getFullYear, bind.
  rewrite (thisTimeValue_run _ _ t (lookup_fresh h t)).
  unfold ret. fold year.
  destruct (Z.rem year 400 =? 0); [reflexivity|].
  destruct (negb (Z.rem year 100 =? 0) && (Z.rem year 4 =? 0)); reflexivity.
Qed.

Lemma timeSpanToString_run (h : heap) (startDate endDate : loc)
    (tStart tEnd : Z) :
  nth_error h startDate = Some tStart ->
  nth_error h endDate = Some tEnd ->
  timeSpanToString startDate endDate h
  = Normal (formatSpan (JsNumber.sub tEnd tStart),
            (h ++ [tStart] ++ [tEnd])%list).
Proof.
  intros Hs He. unfold timeSpanToString, bind.
  rewrite (new_Date_run h startDate tStart Hs).
  rewrite (new_Date_run _ endDate tEnd (extends_app h [tStart] _ _ He)).
  unfold getTime.
  rewrite (thisTimeValue_run _ _ tEnd (lookup_fresh _ tEnd)).
  rewrite (thisTimeValue_run _ (List.length h) tStart
             (extends_app _ [tEnd] _ _ (lookup_fresh h tStart))).
  unfold ret. now rewrite <- app_assoc.
Qed.

Lemma angleBetweenClockHands_run {A : Type} `{Arith A}
    (h : heap) (date : loc) (t : Z) :
  nth_error h date = Some t ->
  angleBetweenClockHands date h
  = Normal (clockAngle (JsTime.HourFromTime t) (JsTime.MinFromTime t), h).
Proof.
  intros Hd. unfold angleBetweenClockHands, getUTCHours, getUTCMinutes, bind.
  rewrite (thisTimeValue_run h date t Hd). unfold ret.
  now rewrite (thisTimeValue_run h date t Hd).
Qed.

(** ** parseDataFromRfc2822 and parseDataFromIso8601 *)

(** What the three tests of line 26 decide: the string handed to
    [Date.parse] has "00" appended if and only if the input contains "GMT",
    does not end with "GMT+" followed by exactly four decimal digits, and
    does not end with "GMT"; otherwise it is the input. *)
Lemma parseDataFromRfc2822_appends_iff
    (Date_parse : string -> JsNumber.timeValue) (value : string) (h : heap) :
  parseDataFromRfc2822 Date_parse value h
  = Normal (Date_parse (rfc2822Argument value), h)
  /\ (rfc2822Argument value = value ++ "00" <->
      containsGMT value /\ ~ endsWithGMTPlusFourDigits value
      /\ ~ endsWithGMT value)
  /\ (rfc2822Argument value = value <->
      ~ (containsGMT value /\ ~ endsWithGMTPlusFourDigits value
         /\ ~ endsWithGMT value)).
Proof.
  split; [apply parseDataFromRfc2822_run|].
  split; [apply rfc2822Argument_appends_iff|].
  rewrite <- rfc2822Argument_appends_iff.
  destruct (rfc2822Argument_cases value) as [H | H]; rewrite H; split.
  - intros E. now apply append_two_zeros_changes in E.
  - intros E. now destruct E.
  - intros _ E. symmetry in E. now apply append_two_zeros_changes in E.
  - reflexivity.
Qed.

(** On a negative offset the tests of the source and the condition of the
    specification part: "GMT" is followed by the four-digit offset "-0100"
    and "00" is appended all the same. *)
Lemma parseDataFromRfc2822_negative_offset :
  let value := "Sun, 17 May 1998 03:00:00 GMT-0100" in
  ~ (rfc2822Argument value = value ++ "00" <->
     claimedAppendCondition value = true).
Proof.
  intros value [H _].
  assert (E : claimedAppendCondition value = false) by (vm_compute; reflexivity).
  rewrite H in E; [discriminate | vm_compute; reflexivity].
Qed.

(** An offset that is not at the very end of the string is not seen either:
    [$] anchors the test of the source. *)
Lemma parseDataFromRfc2822_offset_before_comment :
  let value := "Sun, 17 May 1998 03:00:00 GMT+0100 (CET)" in
  rfc2822Argument value = value ++ "00"
  /\ claimedAppendCondition value = false.
Proof. split; vm_compute; reflexivity. Qed.

(** The documented examples of the function. *)
Example rfc2822Argument_examples :
  rfc2822Argument "December 17, 1995 03:24:00" = "December 17, 1995 03:24:00"
  /\ rfc2822Argument "Tue, 26 Jan 2016 13:48:02 GMT"
     = "Tue, 26 Jan 2016 13:48:02 GMT"
  /\ rfc2822Argument "Sun, 17 May 1998 03:00:00 GMT+01"
     = "Sun, 17 May 1998 03:00:00 GMT+0100".
Proof. repeat split; vm_compute; reflexivity. Qed.

(** On a string and over a parser that does not throw, the parsers of
    [Dynamic] are the parsers above. *)
Lemma Dynamic_parsers_on_strings
    (P : string -> JsNumber.timeValue) (value : string) (h : heap) :
  Dynamic.parseDataFromRfc2822 (fun s => ret (P s)) (Dynamic.JsString value) h
  = parseDataFromRfc2822 P value h
  /\ Dynamic.parseDataFromIso8601 (fun s => ret (P s)) (Dynamic.JsString value) h
     = parseDataFromIso8601 P value h.
Proof.
  split; [|reflexivity].
  unfold Dynamic.parseDataFromRfc2822, parseDataFromRfc2822, rfc2822Argument,
    Dynamic.search, Dynamic.test, bind, ret.
  cbn [Dynamic.ToString].
  destruct (negb (JsString.search value JsString.re_GMT =? -1)
            && negb (JsString.test JsString.re_GMT_plus_offset_end value)
            && negb (JsString.test JsString.re_GMT_end value)); reflexivity.
Qed.

(** C7: for every string input and whatever [Date.parse] does,
    parseDataFromRfc2822 and parseDataFromIso8601 complete exactly as the
    call of [Date.parse] they end in completes, on the string with the
    optional "00" and on the string itself: they throw nothing of their own
    and catch nothing.  So with a parser that never throws on a string, as
    ECMA-262 has it, neither function throws, and a string for which that
    parser answers NaN yields NaN.  That the input is a string matters: on
    [undefined] parseDataFromRfc2822 throws a TypeError before the parser
    is reached. *)
Theorem parsers_complete_as_Date_parse
    (Date_parse : string -> M JsNumber.timeValue) (value : string) (h : heap) :
  let rfc2822 :=
    Dynamic.parseDataFromRfc2822 Date_parse (Dynamic.JsString value) h in
  let iso8601 :=
    Dynamic.parseDataFromIso8601 Date_parse (Dynamic.JsString value) h in
  rfc2822 = Date_parse (rfc2822Argument value) h
  /\ iso8601 = Date_parse value h
  /\ ((forall s h', exists v, Date_parse s h' = Normal (v, h')) ->
      (exists v, rfc2822 = Normal (v, h))
      /\ (exists v, iso8601 = Normal (v, h))
      /\ (Date_parse (rfc2822Argument value) h = Normal (JsNumber.NaN, h) ->
          rfc2822 = Normal (JsNumber.NaN, h))
      /\ (Date_parse value h = Normal (JsNumber.NaN, h) ->
          iso8601 = Normal (JsNumber.NaN, h)))
  /\ Dynamic.parseDataFromRfc2822 Date_parse Dynamic.JsUndefined h
     = Throw TypeError
  /\ Dynamic.parseDataFromIso8601 Date_parse Dynamic.JsUndefined h
     = Date_parse "undefined" h.
Proof.
  intros rfc2822 iso8601.
  assert (Hrfc : rfc2822 = Date_parse (rfc2822Argument value) h).
  { subst rfc2822.
    unfold Dynamic.parseDataFromRfc2822, rfc2822Argument, Dynamic.search,
      Dynamic.test, bind, ret.
    cbn [Dynamic.ToString].
    destruct (negb (JsString.search value JsString.re_GMT =? -1)
              && negb (JsString.test JsString.re_GMT_plus_offset_end value)
              && negb (JsString.test JsString.re_GMT_end value));
      reflexivity. }
  assert (Hiso : iso8601 = Date_parse value h) by reflexivity.
  split; [exact Hrfc|]. split; [exact Hiso|]. split; [|split; reflexivity].
  intros Hparser. rewrite Hrfc, Hiso.
  split; [apply Hparser|]. split; [apply Hparser|]. split; auto.
Qed.

(** A parser that throws makes both functions throw, and one that knows a
    string makes them return its time value. *)
Example parsers_complete_as_Date_parse_examples :
  let failing : string -> M JsNumber.timeValue := fun _ _ => Throw TypeError in
  let knowing : string -> M JsNumber.timeValue :=
    fun s => ret (if String.eqb s "Sun, 17 May 1998 03:00:00 GMT+0100"
                  then JsNumber.Time 895370400000 else JsNumber.NaN) in
  let value := Dynamic.JsString "Sun, 17 May 1998 03:00:00 GMT+01" in
  Dynamic.parseDataFromRfc2822 failing value [] = Throw TypeError
  /\ Dynamic.parseDataFromIso8601 failing value [] = Throw TypeError
  /\ Dynamic.parseDataFromRfc2822 knowing value []
     = Normal (JsNumber.Time 895370400000, [])
  /\ Dynamic.parseDataFromIso8601 knowing value [] = Normal (JsNumber.NaN, []).
Proof. repeat split; vm_compute; reflexivity. Qed.

(** C8: for every string, parseDataFromIso8601 returns what [Date.parse]
    returns on that very string, and leaves the heap as it is. *)
Theorem parseDataFromIso8601_is_Date_parse
    (Date_parse : string -> JsNumber.timeValue) (value : string) (h : heap) :
  parseDataFromIso8601 Date_parse value h = Normal (Date_parse value, h).
Proof. apply parseDataFromIso8601_run. Qed.

(** ** timeSpanToString *)

(** The subtraction of two time values is exact up to 2^53 ms, some
    285,000 years. *)
Lemma roundToDouble_exact (z : Z) :
  Z.abs z <= 2 ^ 53 -> JsNumber.roundToDouble z = z.
Proof.
  intros H. unfold JsNumber.roundToDouble.
  destruct (Z.leb_spec (Z.abs z) (2 ^ 53)); [reflexivity | lia].
Qed.

Lemma sub_offset (t c : Z) :
  Z.abs c <= 2 ^ 53 -> JsNumber.sub (t + c) t = c.
Proof.
  intros H. unfold JsNumber.sub.
  replace (t + c - t) with c by ring. now apply roundToDouble_exact.
Qed.

Example roundToDouble_examples :
  JsNumber.roundToDouble 9007199254740993 = 9007199254740992
  /\ JsNumber.roundToDouble 9007199254740995 = 9007199254740996
  /\ JsNumber.sub 8640000000000000 (-8639999999999999) = 17280000000000000.
Proof. repeat split; vm_compute; reflexivity. Qed.

(** Beyond 2^53 the span is rounded to an even integer, and the dividend
    of [hours], the one other Number of that size, is representable: with
    the exact divisions below, the integer arithmetic of the model is the
    double arithmetic of the program. *)
Lemma roundToDouble_54_bits (z : Z) :
  2 ^ 53 < Z.abs z < 2 ^ 54 ->
  exists k, JsNumber.roundToDouble z = 2 * k
            /\ Z.abs (2 * k) <= Z.abs z + 1.
Proof.
  intros Hz. unfold JsNumber.roundToDouble.
  destruct (Z.leb_spec (Z.abs z) (2 ^ 53)); [lia|].
  assert (Hlog : Z.log2 (Z.abs z) = 53) by (apply Z.log2_unique; lia).
  rewrite Hlog. change (53 - 52) with 1. change (1 - 1) with 0.
  rewrite Z.shiftr_div_pow2, Z.land_ones by lia.
  change (2 ^ 1) with 2. change (2 ^ 0) with 1.
  set (a := Z.abs z) in *.
  set (q' := if (1 <? a mod 2) || (a mod 2 =? 1) && Z.odd (a / 2)
             then a / 2 + 1 else a / 2).
  assert (Hq : a - 1 <= 2 * q' <= a + 1 /\ 0 <= q').
  { unfold q'.
    destruct (Z.ltb_spec 1 (a mod 2)), (Z.eqb_spec (a mod 2) 1),
             (Z.odd (a / 2)); cbn [orb andb];
      Z.to_euclidean_division_equations; lia. }
  exists (Z.sgn z * q'). split; [ring|]. 
  destruct (Z.sgn_spec z) as [[? ->] | [[? ->] | [? ->]]]; lia.
Qed.

Lemma roundToDouble_even (z : Z) :
  Z.abs z < 2 ^ 54 -> Z.even z = true -> JsNumber.roundToDouble z = z.
Proof.
  intros Hz Hev. unfold JsNumber.roundToDouble.
  destruct (Z.leb_spec (Z.abs z) (2 ^ 53)); [reflexivity|].
  assert (Hlog : Z.log2 (Z.abs z) = 53) by (apply Z.log2_unique; lia).
  rewrite Hlog. change (53 - 52) with 1. change (1 - 1) with 0.
  rewrite Z.shiftr_div_pow2, Z.land_ones by lia.
  change (2 ^ 1) with 2. change (2 ^ 0) with 1.
  apply Z.even_spec in Hev as [k Hk].
  assert (Hm : Z.abs z mod 2 = 0) by (Z.to_euclidean_division_equations; lia).
  rewrite Hm. simpl.
  destruct (Z.sgn_spec z) as [[? ->] | [[? ->] | [? ->]]];
    Z.to_euclidean_division_equations; lia.
Qed.

Lemma hours_dividend_representable (tStart tEnd : Z) :
  validTime tStart -> validTime tEnd ->
  let span := JsNumber.sub tEnd tStart in
  representable span /\ representable (span - Z.rem span 3600000).
Proof.
  unfold validTime, representable, JsNumber.sub. intros Hs He.
  set (d := tEnd - tStart).
  assert (Hd : Z.abs d <= 17280000000000000) by lia.
  destruct (Z.le_gt_cases (Z.abs d) (2 ^ 53)) as [Hsmall | Hbig].
  - rewrite (roundToDouble_exact d Hsmall). cbv zeta. split.
    + now apply roundToDouble_exact.
    + apply roundToDouble_exact. Z.to_euclidean_division_equations; lia.
  - destruct (roundToDouble_54_bits d) as (k & Hk & Hbound); [lia|].
    cbv zeta. rewrite Hk. split.
    + apply roundToDouble_even; [lia|]. apply Z.even_spec. now exists k.
    + apply roundToDouble_even.
      * Z.to_euclidean_division_equations; lia.
      * apply Z.even_spec. exists (k - Z.rem (2 * k) 3600000 / 2).
        Z.to_euclidean_division_equations; lia.
Qed.

(** Every division of the function is exact, so that its Numbers stay
    integers. *)
Lemma seconds_exact (span : Z) :
  Z.rem (Z.rem span 60000 - Z.rem span 1000) 1000 = 0.
Proof. Z.to_euclidean_division_equations; lia. Qed.

Lemma minutes_exact (span : Z) :
  let ms := Z.rem span 1000 in
  let seconds := Z.quot (Z.rem span 60000 - ms) 1000 in
  Z.rem (Z.rem span 3600000 - seconds * 1000 - ms) 60000 = 0.
Proof. cbv zeta. Z.to_euclidean_division_equations; lia. Qed.

Lemma hours_exact (span : Z) :
  Z.rem (span - Z.rem span 3600000) 3600000 = 0.
Proof. Z.to_euclidean_division_equations; lia. Qed.

(** For a span that is not negative the four fields are the digits of the
    span in the mixed radix 1000, 60, 60. *)
Lemma fields_decompose (span : Z) :
  0 <= span ->
  let ms := Z.rem span 1000 in
  let seconds := Z.quot (Z.rem span 60000 - ms) 1000 in
  let minutes := Z.quot (Z.rem span 3600000 - seconds * 1000 - ms) 60000 in
  let hours := Z.quot (span - Z.rem span 3600000) 3600000 in
  span = hours * 3600000 + minutes * 60000 + seconds * 1000 + ms
  /\ 0 <= hours /\ 0 <= minutes < 60 /\ 0 <= seconds < 60 /\ 0 <= ms < 1000.
Proof. intros H. cbv zeta. Z.to_euclidean_division_equations. lia. Qed.

(** A Number from 10 on prints with two digits at least. *)
Lemma toString_length_from_10 (n : Z) :
  10 <= n -> (2 <= String.length (JsNumber.toString n))%nat.
Proof.
  intros Hn. unfold JsNumber.toString.
  pose proof (DecimalZ.of_to n) as Hof.
  destruct (Z.to_int n) as [u | u].
  - destruct u as [|u|u|u|u|u|u|u|u|u|u];
      [vm_compute in Hof; lia | ..];
      (destruct u; [vm_compute in Hof; lia | simpl; lia ..]).
  - destruct u; simpl; lia.
Qed.

(** Below 1000 the padding is decided by comparing the Number with 10 and
    100. *)
Lemma zeroPad_below_1000 (n : Z) :
  0 <= n < 1000 ->
  (n < 100 ->
   zeroPad 2 n = if n <? 10 then "0" ++ JsNumber.toString n
                 else JsNumber.toString n)
  /\ zeroPad 3 n = if n <? 10 then "00" ++ JsNumber.toString n
                   else if n <? 100 then "0" ++ JsNumber.toString n
                   else JsNumber.toString n.
Proof.
  intros Hn.
  assert (Hall : forallb padsAsCompared (seq 0 1000) = true)
    by (vm_compute; reflexivity).
  assert (Hin : In (Z.to_nat n) (seq 0 1000)) by (apply in_seq; lia).
  apply (proj1 (forallb_forall _ _) Hall) in Hin.
  unfold padsAsCompared in Hin. rewrite Z2Nat.id in Hin by lia.
  apply andb_prop in Hin as [H2 H3]. apply String.eqb_eq in H3.
  split; [|exact H3]. intros Hlt.
  apply orb_prop in H2 as [H2 | H2]; [now apply String.eqb_eq in H2|].
  apply Z.leb_le in H2. lia.
Qed.

Lemma zeroPad_2_from_10 (n : Z) : 10 <= n -> zeroPad 2 n = JsNumber.toString n.
Proof.
  intros Hn. unfold zeroPad.
  pose proof (toString_length_from_10 n Hn) as Hlen.
  replace (2 - String.length (JsNumber.toString n))%nat with 0%nat by lia.
  reflexivity.
Qed.

(** The two-digit padding of the source, written three times in it, pads
    to width 2. *)
Lemma padded_two_digits (n : Z) :
  0 <= n ->
  ToString (if n =? 0 then VString "00"
            else if n <? 10 then VString ("0" ++ JsNumber.toString n)
            else VNumber n)
  = zeroPad 2 n.
Proof.
  intros Hn. destruct (Z.eqb_spec n 0) as [-> | Hn0]; [reflexivity|].
  destruct (Z.ltb_spec n 10) as [Hlt | Hge]; cbn [ToString].
  - destruct (zeroPad_below_1000 n ltac:(lia)) as [H2 _].
    rewrite H2 by lia. destruct (Z.ltb_spec n 10); [reflexivity | lia].
  - symmetry. now apply zeroPad_2_from_10.
Qed.

(** Away from the defect the function is the formatter of the
    specification: for a span that is not negative and whose millisecond
    component is 0 or at least 100. *)
Lemma formatSpan_is_spec (span : Z) :
  0 <= span ->
  span mod 1000 = 0 \/ 100 <= span mod 1000 ->
  formatSpan span = formatTimeSpanSpec span.
Proof.
  intros Hspan Hms.
  destruct (fields_decompose span Hspan) as (Hsum & Hh & Hm & Hs & Hmsr).
  unfold formatSpan, formatTimeSpanSpec.
  set (ms := Z.rem span 1000) in *.
  set (seconds := Z.quot (Z.rem span 60000 - ms) 1000) in *.
  set (minutes := Z.quot (Z.rem span 3600000 - seconds * 1000 - ms) 60000) in *.
  set (hours := Z.quot (span - Z.rem span 3600000) 3600000) in *.
  assert (Ems : span mod 1000 = ms)
    by (unfold ms; rewrite Z.rem_mod_nonneg; lia).
  assert (Es : (span / 1000) mod 60 = seconds)
    by (clearbody hours minutes seconds ms;
        Z.to_euclidean_division_equations; lia).
  assert (Em : (span / 60000) mod 60 = minutes)
    by (clearbody hours minutes seconds ms;
        Z.to_euclidean_division_equations; lia).
  assert (Eh : span / 3600000 = hours)
    by (clearbody hours minutes seconds ms;
        Z.to_euclidean_division_equations; lia).
  rewrite Ems, Es, Em, Eh. rewrite Ems in Hms.
  clearbody hours minutes seconds ms. clear Hsum Ems Es Em Eh Hspan span.
  pose proof padded_two_digits as Hpad2.
  destruct (zeroPad_below_1000 ms Hmsr) as [_ Hpad3].
  rewrite <- (Hpad2 hours), <- (Hpad2 minutes), <- (Hpad2 seconds), Hpad3
    by lia.
  unfold msBranchOf. destruct Hms as [-> | Hge]; [reflexivity|].
  destruct (Z.eqb_spec ms 0); [lia|].
  destruct (Z.ltb_spec ms 100); [lia|].
  destruct (Z.ltb_spec ms 10); [lia|]. reflexivity.
Qed.

(** C6: whatever the start instant, timeSpanToString returns
    "01:00:00.000" for a span of one hour, "00:30:00.000" for 30 minutes,
    "00:00:20.000" for 20 seconds, "00:00:00.250" for 250 milliseconds and
    "05:20:10.453" for 5 h 20 min 10 s 453 ms. *)
Theorem timeSpanToString_examples
    (h : heap) (startDate endDate : loc) (tStart span : Z) :
  nth_error h startDate = Some tStart ->
  nth_error h endDate = Some (tStart + span) ->
  let h' := (h ++ [tStart] ++ [tStart + span])%list in
  (span = 3600000 ->
   timeSpanToString startDate endDate h = Normal ("01:00:00.000", h'))
  /\ (span = 1800000 ->
      timeSpanToString startDate endDate h = Normal ("00:30:00.000", h'))
  /\ (span = 20000 ->
      timeSpanToString startDate endDate h = Normal ("00:00:20.000", h'))
  /\ (span = 250 ->
      timeSpanToString startDate endDate h = Normal ("00:00:00.250", h'))
  /\ (span = 19210453 ->
      timeSpanToString startDate endDate h = Normal ("05:20:10.453", h')).
Proof.
  intros Hs He h'.
  rewrite (timeSpanToString_run h startDate endDate _ _ Hs He). fold h'.
  repeat split; intros ->; rewrite sub_offset by (vm_compute; discriminate);
    reflexivity.
Qed.

(** The last documented example: from 10:00:00.000 to 15:20:10.453 on
    1 February 2000 (UTC). *)
Lemma timeSpanToString_examples_witness :
  timeSpanToString 0%nat 1%nat [949399200000; 949418410453]
  = Normal ("05:20:10.453",
            [949399200000; 949418410453; 949399200000; 949418410453]).
Proof.
  apply (timeSpanToString_examples
           [949399200000; 949418410453] 0%nat 1%nat 949399200000 19210453);
    reflexivity.
Defined.

(** C1 fails on the code at a span of 50 ms: the padded milliseconds are
    written into [hours], and the milliseconds field is left as it was,
    where the duration string of the specification is "00:00:00.050"; the
    same at 5 h 20 min 10 s 7 ms. *)
Theorem timeSpanToString_50ms_overwrites_hours :
  timeSpanToString 0%nat 1%nat [0; 50] = Normal ("050:00:00.50", [0; 50; 0; 50])
  /\ formatTimeSpanSpec 50 = "00:00:00.050"
  /\ timeSpanToString 0%nat 1%nat [949399200000; 949418410007]
     = Normal ("07:20:10.7",
               [949399200000; 949418410007; 949399200000; 949418410007])
  /\ formatTimeSpanSpec 19210007 = "05:20:10.007".
Proof. repeat split; vm_compute; reflexivity. Qed.

(** Hours are not capped at a day. *)
Example formatSpan_hours_uncapped :
  formatSpan 360000000000 = "100000:00:00.000"
  /\ formatTimeSpanSpec 360000000000 = "100000:00:00.000".
Proof. split; vm_compute; reflexivity. Qed.

(** The same for every span: with a millisecond component between 1 and 99
    the hours of the span are lost from the output. *)
Lemma formatSpan_ms_below_100 (span : Z) :
  let ms := Z.rem span 1000 in
  let seconds := Z.quot (Z.rem span 60000 - ms) 1000 in
  let minutes := Z.quot (Z.rem span 3600000 - seconds * 1000 - ms) 60000 in
  1 <= ms <= 99 ->
  exists mm ss,
    formatSpan span
    = "0" ++ JsNumber.toString ms ++ ":" ++ mm ++ ":" ++ ss ++ "."
      ++ JsNumber.toString ms.
Proof.
  intros ms seconds minutes Hms. unfold formatSpan, msBranchOf.
  fold ms. fold seconds. fold minutes.
  destruct (Z.eqb_spec ms 0); [lia|].
  destruct (Z.ltb_spec ms 100); [|lia].
  eexists _, _. cbn [ToString]. reflexivity.
Qed.

Lemma colonFree_append (s t : string) :
  colonFree (s ++ t) = colonFree s && colonFree t.
Proof.
  induction s as [|c s IH]; simpl; [reflexivity|].
  now rewrite IH, andb_assoc.
Qed.

Lemma colonFree_uint (u : Decimal.uint) :
  colonFree (NilEmpty.string_of_uint u) = true.
Proof. induction u; simpl; auto. Qed.

Lemma colonFree_toString (n : Z) : colonFree (JsNumber.toString n) = true.
Proof.
  unfold JsNumber.toString.
  destruct (Z.to_int n) as [u | u]; simpl;
    (destruct u; [reflexivity | apply colonFree_uint ..]).
Qed.

Lemma colonFree_zeroPad (width : nat) (n : Z) :
  colonFree (zeroPad width n) = true.
Proof.
  unfold zeroPad. rewrite colonFree_append, colonFree_toString, andb_true_r.
  induction (width - _)%nat; simpl; auto.
Qed.

(** Two strings that agree and are cut at their first ":" agree on both
    sides of it. *)
Lemma cut_at_first_colon (s1 s2 t1 t2 : string) :
  colonFree s1 = true -> colonFree s2 = true ->
  s1 ++ String ":" t1 = s2 ++ String ":" t2 -> s1 = s2 /\ t1 = t2.
Proof.
  revert s2. induction s1 as [|c s1 IH]; intros [|c2 s2] H1 H2 E;
    simpl in *.
  - injection E as E. now split.
  - injection E as <- _. discriminate.
  - injection E as -> _. discriminate.
  - injection E as <- E.
    apply andb_prop in H1 as [_ H1]. apply andb_prop in H2 as [_ H2].
    destruct (IH s2 H1 H2 E) as [-> ->]. now split.
Qed.

Lemma lengths_below_100 (n : Z) :
  0 <= n < 100 ->
  (String.length (JsNumber.toString n) <= 2)%nat
  /\ String.length (zeroPad 2 n) = 2%nat
  /\ String.length (zeroPad 3 n) = 3%nat.
Proof.
  intros Hn.
  assert (Hall : forallb (fun k =>
                   let z := Z.of_nat k in
                   (String.length (JsNumber.toString z) <=? 2)%nat
                   && (String.length (zeroPad 2 z) =? 2)%nat
                   && (String.length (zeroPad 3 z) =? 3)%nat)
                 (seq 0 100) = true) by (vm_compute; reflexivity).
  assert (Hin : In (Z.to_nat n) (seq 0 100)) by (apply in_seq; lia).
  apply (proj1 (forallb_forall _ _) Hall) in Hin.
  cbv zeta in Hin. rewrite Z2Nat.id in Hin by lia.
  apply andb_prop in Hin as [Hin H3]. apply andb_prop in Hin as [H1 H2].
  apply Nat.leb_le in H1. apply Nat.eqb_eq in H2, H3. auto.
Qed.

(** With a millisecond component between 1 and 99 the output is never the
    duration string of the specification. *)
Lemma formatSpan_ms_below_100_is_not_spec (span : Z) :
  0 <= span -> 1 <= span mod 1000 <= 99 ->
  formatSpan span <> formatTimeSpanSpec span.
Proof.
  intros Hspan Hms.
  destruct (fields_decompose span Hspan) as (_ & _ & Hm & Hs & _).
  unfold formatSpan, formatTimeSpanSpec, msBranchOf.
  set (ms := Z.rem span 1000) in *.
  set (seconds := Z.quot (Z.rem span 60000 - ms) 1000) in *.
  set (minutes := Z.quot (Z.rem span 3600000 - seconds * 1000 - ms) 60000) in *.
  assert (Ems : span mod 1000 = ms)
    by (unfold ms; rewrite Z.rem_mod_nonneg; lia).
  rewrite Ems in *.
  destruct (Z.eqb_spec ms 0); [lia|].
  destruct (Z.ltb_spec ms 100); [|lia].
  cbn [ToString].
  rewrite (padded_two_digits minutes), (padded_two_digits seconds) by lia.
  set (minutes' := (span / 60000) mod 60).
  set (seconds' := (span / 1000) mod 60).
  intros E.
  change (("0" ++ JsNumber.toString ms)
          ++ String ":" (zeroPad 2 minutes ++ ":" ++ zeroPad 2 seconds
                           ++ "." ++ JsNumber.toString ms)
          = zeroPad 2 (span / 3600000)
            ++ String ":" (zeroPad 2 minutes' ++ ":" ++ zeroPad 2 seconds'
                             ++ "." ++ zeroPad 3 ms)) in E.
  apply cut_at_first_colon in E as [_ E];
    [| simpl; apply colonFree_toString | apply colonFree_zeroPad].
  apply (f_equal String.length) in E.
  destruct (lengths_below_100 ms ltac:(lia)) as (Hlen & _ & Hlen3).
  destruct (lengths_below_100 minutes ltac:(lia)) as (_ & Hm2 & _).
  destruct (lengths_below_100 seconds ltac:(lia)) as (_ & Hs2 & _).
  assert (Hm' : 0 <= minutes' < 60) by (apply Z.mod_pos_bound; lia).
  assert (Hs' : 0 <= seconds' < 60) by (apply Z.mod_pos_bound; lia).
  destruct (lengths_below_100 minutes' ltac:(lia)) as (_ & Hm2' & _).
  destruct (lengths_below_100 seconds' ltac:(lia)) as (_ & Hs2' & _).
  rewrite !length_of_append in E. simpl in E. lia.
Qed.

(** C10: for every pair of instants the arm guarded by [ms < 10] is never
    taken: a millisecond component below 10 is 0, and takes the first arm,
    or is below 100, and takes the second. *)
Theorem ms_below_10_branch_unreachable (tStart tEnd : Z) :
  let span := JsNumber.sub tEnd tStart in
  let ms := Z.rem span 1000 in
  msBranchOf ms <> MsBelow10
  /\ (ms < 10 -> msBranchOf ms = MsIsZero \/ msBranchOf ms = MsBelow100).
Proof.
  intros span ms. unfold msBranchOf.
  destruct (Z.eqb_spec ms 0); [split; [discriminate | auto]|].
  destruct (Z.ltb_spec ms 100); [split; [discriminate | auto]|].
  destruct (Z.ltb_spec ms 10); [lia|]. split; [discriminate | lia].
Qed.

(** The same for any Number [ms] may hold. *)
Lemma msBranchOf_never_below_10 (ms : Z) : msBranchOf ms <> MsBelow10.
Proof.
  unfold msBranchOf.
  destruct (Z.eqb_spec ms 0); [discriminate|].
  destruct (Z.ltb_spec ms 100); [discriminate|].
  destruct (Z.ltb_spec ms 10); [lia | discriminate].
Qed.

(** ** isLeapYear *)

Lemma rem_zero_iff_mod_zero (a b : Z) :
  b <> 0 -> (Z.rem a b =? 0) = (a mod b =? 0).
Proof.
  intros Hb. apply eq_true_iff_eq.
  rewrite !Z.eqb_eq, Z.rem_divide, Z.mod_divide by exact Hb. reflexivity.
Qed.

(** C3: for every date whose local-time year is [Y], isLeapYear returns
    true exactly when [Y] is divisible by 400, or by 4 but not by 100; its
    answer is the one of the specification's algorithm; it is false for
    1900, true for 2000, false for 2001, true for 2012, false for 2015. *)
Theorem isLeapYear_divisibility_rule
    (LocalTZA : Z -> Z) (h : heap) (date : loc) (t Y : Z) :
  nth_error h date = Some t ->
  JsTime.YearFromTime (LocalTime LocalTZA t) = Y ->
  exists b,
    isLeapYear LocalTZA date h = Normal (b, (h ++ [t])%list)
    /\ (b = true <-> (400 | Y) \/ ((4 | Y) /\ ~ (100 | Y)))
    /\ b = leapYearAlgorithm Y
    /\ (Y = 1900 -> b = false)
    /\ (Y = 2000 -> b = true)
    /\ (Y = 2001 -> b = false)
    /\ (Y = 2012 -> b = true)
    /\ (Y = 2015 -> b = false).
Proof.
  intros Hd HY. eexists. split.
  - rewrite (isLeapYear_run LocalTZA h date t Hd). rewrite HY. reflexivity.
  - split; [|split].
    + rewrite orb_true_iff, andb_true_iff, negb_true_iff.
      rewrite <- !Z.rem_divide, <- !Z.eqb_eq by discriminate.
      destruct (Z.rem Y 100 =? 0); intuition congruence.
    + unfold leapYearAlgorithm.
      rewrite !rem_zero_iff_mod_zero by discriminate.
      destruct (Y mod 400 =? 0), (Y mod 100 =? 0), (Y mod 4 =? 0);
        reflexivity.
    + repeat split; intros ->; reflexivity.
Qed.

(** 1 February 2000, 00:00 UTC, read in the UTC time zone. *)
Lemma isLeapYear_divisibility_rule_witness :
  isLeapYear (fun _ => 0) 0%nat [949363200000]
  = Normal (true, [949363200000; 949363200000]).
Proof.
  destruct (isLeapYear_divisibility_rule
              (fun _ => 0) [949363200000] 0%nat 949363200000 2000
              eq_refl eq_refl)
    as (b & Hrun & _ & _ & _ & H2000 & _).
  rewrite Hrun, (H2000 eq_refl). reflexivity.
Defined.

(** The documented examples, [Date(Y,1,1)] read in the UTC time zone. *)
Example isLeapYear_examples :
  let utc := fun _ : Z => 0 in
  let answer t :=
    match isLeapYear utc 0%nat [t] with
    | Normal (b, _) => Some b
    | Throw _ => None
    end in
  answer (-2206310400000) = Some false      (* 1900 *)
  /\ answer 949363200000 = Some true        (* 2000 *)
  /\ answer 980985600000 = Some false       (* 2001 *)
  /\ answer 1328054400000 = Some true       (* 2012 *)
  /\ answer 1422748800000 = Some false.     (* 2015 *)
Proof. repeat split; vm_compute; reflexivity. Qed.

(** ** Time values *)

(** [YearFromTime] is the year the instant falls in. *)
Lemma YearFromTime_spec (t : Z) :
  JsTime.TimeFromYear (JsTime.YearFromTime t) <= t
  < JsTime.TimeFromYear (JsTime.YearFromTime t + 1).
Proof.
  unfold JsTime.YearFromTime, JsTime.TimeFromYear, JsTime.DayFromYear,
    JsTime.Day, JsTime.msPerDay.
  repeat match goal with
         | |- context [?a <=? ?b] => destruct (Z.leb_spec a b)
         end.
  all: Z.to_euclidean_division_equations; lia.
Qed.

(** ** Bounds on pi *)

Lemma Q2R_qpow (q : Q) (n : nat) :
  Q2R (PiBounds.qpow q n) = (Q2R q ^ n)%R.
Proof.
  induction n as [|n IH]; simpl.
  - unfold Q2R. simpl. lra.
  - now rewrite Q2R_mult, IH.
Qed.

Lemma Q2R_inject_nat (n : nat) : Q2R (inject_Z (Z.of_nat n)) = INR n.
Proof. rewrite INR_IZR_INZ. unfold Q2R. simpl. lra. Qed.

Lemma Q2R_term (i : nat) :
  Q2R (PiBounds.term i) = tg_alt PI_2_3_7_tg i.
Proof.
  unfold PiBounds.term, tg_alt, PI_2_3_7_tg, Ratan_seq.
  assert (Hk : ~ (inject_Z (Z.of_nat (2 * i + 1)) == 0)%Q).
  { unfold Qeq. simpl. lia. }
  rewrite Q2R_mult, Q2R_plus, Q2R_mult, !Q2R_div, !Q2R_qpow, Q2R_inject_nat
    by exact Hk.
  replace (Q2R (-1)) with (-1)%R by (unfold Q2R; simpl; lra).
  replace (Q2R 2) with 2%R by (unfold Q2R; simpl; lra).
  replace (Q2R (1 # 3)) with (/ 3)%R by (unfold Q2R; simpl; lra).
  replace (Q2R (1 # 7)) with (/ 7)%R by (unfold Q2R; simpl; lra).
  reflexivity.
Qed.

Lemma Q2R_partialSum (n : nat) :
  Q2R (PiBounds.partialSum n) = sum_f_R0 (tg_alt PI_2_3_7_tg) n.
Proof.
  induction n as [|n IH]; simpl.
  - apply Q2R_term.
  - now rewrite Q2R_plus, IH, Q2R_term.
Qed.

Lemma Q2R_four_partialSum (n : nat) :
  Q2R (Qred (4 * PiBounds.partialSum n))
  = (4 * sum_f_R0 (tg_alt PI_2_3_7_tg) n)%R.
Proof.
  rewrite (Qeq_eqR _ _ (Qred_correct _)), Q2R_mult, Q2R_partialSum.
  replace (Q2R 4) with 4%R by (unfold Q2R; simpl; lra). reflexivity.
Qed.

Lemma pi_between_bounds :
  (Q2R PiBounds.lower <= PI <= Q2R PiBounds.upper)%R.
Proof.
  unfold PiBounds.lower, PiBounds.upper. rewrite !Q2R_four_partialSum.
  pose proof (PI_2_3_7_ineq 10) as [Hlo Hhi].
  change (S (2 * 10)) with 21%nat in Hlo. change (2 * 10)%nat with 20%nat in Hhi.
  lra.
Qed.

Lemma Qle_bool_Rle (x y : Q) : Qle_bool x y = true -> (Q2R x <= Q2R y)%R.
Proof. intros H. apply Qle_Rle. now apply Qle_bool_iff. Qed.

(** [Math.PI] is a double below pi. *)
Lemma Math_PI_below_pi :
  exists p, Double.toQ Double.PI = Some p /\ (Q2R p <= PI)%R.
Proof.
  eexists. split; [vm_compute; reflexivity|].
  apply Rle_trans with (Q2R PiBounds.lower); [|apply pi_between_bounds].
  apply Qle_bool_Rle. vm_compute. reflexivity.
Qed.

(** ** angleBetweenClockHands *)

Lemma HourFromTime_range (t : Z) : 0 <= JsTime.HourFromTime t < 24.
Proof. unfold JsTime.HourFromTime. apply Z.mod_pos_bound. lia. Qed.

Lemma MinFromTime_range (t : Z) : 0 <= JsTime.MinFromTime t < 60.
Proof. unfold JsTime.MinFromTime. apply Z.mod_pos_bound. lia. Qed.

Lemma clockTimes_complete (hours minutes : Z) :
  0 <= hours < 24 -> 0 <= minutes < 60 -> In (hours, minutes) clockTimes.
Proof.
  intros Hh Hm. unfold clockTimes. apply in_prod; apply in_map_iff.
  - exists (Z.to_nat hours). split; [lia | apply in_seq; lia].
  - exists (Z.to_nat minutes). split; [lia | apply in_seq; lia].
Qed.

Lemma halfDegrees_range (hours minutes : Z) :
  0 <= hours < 24 -> 0 <= minutes < 60 ->
  0 <= halfDegrees hours minutes <= 360.
Proof.
  intros Hh Hm. unfold halfDegrees.
  destruct (Z.ltb_spec 360 (Z.abs (60 * Z.rem hours 12 - 11 * minutes)));
    Z.to_euclidean_division_equations; lia.
Qed.

(** In exact arithmetic the degrees of the code are half the integer
    [halfDegrees]. *)
Lemma clockAngle_real_closed_form (hours minutes : Z) :
  clockAngle (A := R) hours minutes
  = (IZR (halfDegrees hours minutes) * PI / 360)%R.
Proof.
  unfold clockAngle, halfDegrees.
  cbn [num add sub mul div abs gt Math_PI ArithReal].
  set (z := 60 * Z.rem hours 12 - 11 * minutes).
  assert (Hd : ((IZR (Z.rem hours 12) + IZR minutes / 60) * 360 / 12
                - IZR minutes * 360 / 60 = IZR z / 2)%R).
  { unfold z. rewrite minus_IZR, !mult_IZR. field. }
  rewrite Hd.
  assert (Ha : Rabs (IZR z / 2) = (IZR (Z.abs z) / 2)%R).
  { unfold Rdiv. rewrite Rabs_mult, Rabs_Zabs, (Rabs_pos_eq (/ 2)) by lra.
    reflexivity. }
  rewrite Ha.
  destruct (Rlt_dec 180 (IZR (Z.abs z) / 2)) as [Hgt | Hle];
    destruct (Z.ltb_spec 360 (Z.abs z)) as [Hz | Hz].
  - rewrite minus_IZR. field.
  - apply IZR_le in Hz. lra.
  - apply IZR_lt in Hz. lra.
  - field.
Qed.

Lemma clockAngle_real_range (hours minutes : Z) :
  0 <= hours < 24 -> 0 <= minutes < 60 ->
  (0 <= clockAngle (A := R) hours minutes <= PI)%R.
Proof.
  intros Hh Hm. rewrite clockAngle_real_closed_form.
  destruct (halfDegrees_range hours minutes Hh Hm) as [H0 H360].
  apply IZR_le in H0, H360. pose proof PI_RGT_0. nra.
Qed.

(** The code computes what the specification describes. *)
Lemma clockAngle_real_is_spec (hours minutes : Z) :
  0 <= hours ->
  clockAngle (A := R) hours minutes = clockAngleSpec hours minutes.
Proof.
  intros Hh. unfold clockAngle, clockAngleSpec.
  cbn [num add sub mul div abs gt Math_PI ArithReal].
  rewrite Z.rem_mod_nonneg by lia.
  set (hand := ((IZR (hours mod 12) + IZR minutes / 60) * 360 / 12
                - IZR minutes * 360 / 60)%R).
  replace ((IZR (hours mod 12) + IZR minutes / 60) * 30 - IZR minutes * 6)%R
    with hand by (unfold hand; field).
  destruct (Rlt_dec 180 (Rabs hand)); field.
Qed.

(** The double computation, checked at each of the 1440 times of a day. *)
Lemma doubleAngle_checked : forallb doubleAngleChecks clockTimes = true.
Proof. vm_compute. reflexivity. Qed.

(** The double the code computes is finite, lies between 0 and pi, and is
    within [roundingBound] of the value in exact arithmetic. *)
Lemma clockAngle_double_sound (hours minutes : Z) :
  0 <= hours < 24 -> 0 <= minutes < 60 ->
  exists q,
    Double.toQ (clockAngle (A := float) hours minutes) = Some q
    /\ (0 <= Q2R q <= PI)%R
    /\ (Rabs (Q2R q - clockAngle (A := R) hours minutes)
        <= Q2R roundingBound)%R.
Proof.
  intros Hh Hm.
  pose proof (proj1 (forallb_forall _ _) doubleAngle_checked _
                (clockTimes_complete hours minutes Hh Hm)) as Hc.
  unfold doubleAngleChecks in Hc.
  destruct (Double.toQ (clockAngle hours minutes)) as [q|]; [|discriminate].
  destruct Math_PI_below_pi as (p & Hp & Hpi). rewrite Hp in Hc.
  apply andb_prop in Hc as [Hc Hhi]. apply andb_prop in Hc as [Hc Hlo].
  apply andb_prop in Hc as [H0 Hqp].
  apply Qle_bool_Rle in H0, Hqp, Hlo, Hhi.
  assert (H360 : ~ (360 == 0)%Q) by discriminate.
  rewrite Q2R_minus, Q2R_div, Q2R_mult in Hlo by exact H360.
  rewrite Q2R_plus, Q2R_div, Q2R_mult in Hhi by exact H360.
  replace (Q2R 360) with 360%R in Hlo, Hhi by (unfold Q2R; simpl; lra).
  replace (Q2R 0) with 0%R in H0 by (unfold Q2R; simpl; lra).
  replace (Q2R (inject_Z (halfDegrees hours minutes)))
    with (IZR (halfDegrees hours minutes)) in Hlo, Hhi
    by (unfold Q2R; simpl; lra).
  exists q. split; [reflexivity|]. split; [lra|].
  rewrite clockAngle_real_closed_form.
  destruct (halfDegrees_range hours minutes Hh Hm) as [Hd0 _].
  apply IZR_le in Hd0.
  destruct pi_between_bounds as [Hl Hu].
  set (d := IZR (halfDegrees hours minutes)) in *.
  assert (Hdl : (d * Q2R PiBounds.lower <= d * PI)%R)
    by (apply Rmult_le_compat_l; assumption).
  assert (Hdu : (d * PI <= d * Q2R PiBounds.upper)%R)
    by (apply Rmult_le_compat_l; assumption).
  apply Rabs_le. lra.
Qed.

(** C4: for every instant, the Number angleBetweenClockHands returns lies in
    the closed interval from 0 to pi: the double the program computes, and
    the value of the same computation in exact arithmetic. *)
Theorem angleBetweenClockHands_range (h : heap) (date : loc) (t : Z) :
  nth_error h date = Some t ->
  (exists r q,
      angleBetweenClockHands (A := float) date h = Normal (r, h)
      /\ Double.toQ r = Some q
      /\ (0 <= Q2R q <= PI)%R)
  /\ (exists x,
         angleBetweenClockHands (A := R) date h = Normal (x, h)
         /\ (0 <= x <= PI)%R).
Proof.
  intros Hd. rewrite !(angleBetweenClockHands_run h date t Hd).
  pose proof (HourFromTime_range t) as Hh.
  pose proof (MinFromTime_range t) as Hm.
  split.
  - destruct (clockAngle_double_sound _ _ Hh Hm) as (q & Hq & Hr & _).
    eexists _, q. split; [reflexivity|]. split; assumption.
  - eexists. split; [reflexivity|]. now apply clockAngle_real_range.
Qed.

(** 5 April 2016, 18:00 UTC. *)
Lemma angleBetweenClockHands_range_witness :
  (exists r q,
      angleBetweenClockHands (A := float) 0%nat [1459879200000]
      = Normal (r, [1459879200000])
      /\ Double.toQ r = Some q
      /\ (0 <= Q2R q <= PI)%R)
  /\ (exists x,
         angleBetweenClockHands (A := R) 0%nat [1459879200000]
         = Normal (x, [1459879200000])
         /\ (0 <= x <= PI)%R).
Proof.
  apply (angleBetweenClockHands_range [1459879200000] 0%nat 1459879200000).
  reflexivity.
Defined.

(** C5: for every instant with UTC hour [hours] and UTC minute [minutes],
    angleBetweenClockHands computes, in exact arithmetic, the angle of the
    specification (minute hand at m * 6 degrees, hour hand at
    ((h mod 12) + m / 60) * 30 degrees, absolute difference, 360 minus it
    above 180, times pi/180); the double it returns is within 2^-49 of that
    angle; and the result is 0 at 0:00, pi/2 at 3:00, pi at 6:00 and pi/2 at
    9:00, for the doubles as [Math.PI] and its half. *)
Theorem angleBetweenClockHands_algorithm (h : heap) (date : loc) (t : Z) :
  nth_error h date = Some t ->
  let hours := JsTime.HourFromTime t in
  let minutes := JsTime.MinFromTime t in
  let double := angleBetweenClockHands (A := float) date h in
  let exact := angleBetweenClockHands (A := R) date h in
  exact = Normal (clockAngleSpec hours minutes, h)
  /\ (exists r q,
         double = Normal (r, h) /\ Double.toQ r = Some q
         /\ (Rabs (Q2R q - clockAngleSpec hours minutes)
             <= Q2R roundingBound)%R)
  /\ (hours = 0 -> minutes = 0 ->
      double = Normal (0%float, h) /\ exact = Normal (0%R, h))
  /\ (hours = 3 -> minutes = 0 ->
      double = Normal ((Double.PI / 2)%float, h)
      /\ exact = Normal ((PI / 2)%R, h))
  /\ (hours = 6 -> minutes = 0 ->
      double = Normal (Double.PI, h) /\ exact = Normal (PI, h))
  /\ (hours = 9 -> minutes = 0 ->
      double = Normal ((Double.PI / 2)%float, h)
      /\ exact = Normal ((PI / 2)%R, h)).
Proof.
  intros Hd hours minutes double exact. subst double exact.
  rewrite !(angleBetweenClockHands_run h date t Hd). fold hours minutes.
  pose proof (HourFromTime_range t) as Hh.
  pose proof (MinFromTime_range t) as Hm. fold hours in Hh. fold minutes in Hm.
  assert (Hspec : clockAngle (A := R) hours minutes
                  = clockAngleSpec hours minutes)
    by (apply clockAngle_real_is_spec; lia).
  split; [now rewrite Hspec|]. split.
  { destruct (clockAngle_double_sound _ _ Hh Hm) as (q & Hq & _ & Hclose).
    eexists _, q. split; [reflexivity|]. split; [exact Hq|].
    now rewrite <- Hspec. }
  clear Hspec Hh Hm. clearbody hours minutes.
  split; [|split; [|split]]; intros -> ->;
    (split; [vm_compute; reflexivity|]);
    rewrite clockAngle_real_closed_form; do 2 f_equal;
    unfold halfDegrees; simpl; field.
Qed.

(** 5 April 2016, 03:00 UTC. *)
Lemma angleBetweenClockHands_algorithm_witness :
  angleBetweenClockHands (A := float) 0%nat [1459825200000]
  = Normal ((Double.PI / 2)%float, [1459825200000])
  /\ angleBetweenClockHands (A := R) 0%nat [1459825200000]
     = Normal ((PI / 2)%R, [1459825200000]).
Proof.
  destruct (angleBetweenClockHands_algorithm
              [1459825200000] 0%nat 1459825200000 eq_refl)
    as (_ & _ & _ & H3 & _).
  apply H3; reflexivity.
Defined.

(** * Further properties *)

(** ** parseDataFromRfc2822: offsets of two digits *)

Lemma append_assoc_string (s t u : string) : (s ++ t) ++ u = s ++ (t ++ u).
Proof. induction s as [|c s IH]; simpl; congruence. Qed.

Lemma append_inj_right (s1 s2 t1 t2 : string) :
  String.length t1 = String.length t2 ->
  s1 ++ t1 = s2 ++ t2 -> s1 = s2 /\ t1 = t2.
Proof.
  intros Hlen. revert s2.
  induction s1 as [|a s1 IH]; intros [|b s2] E; simpl in E.
  - now split.
  - apply (f_equal String.length) in E. simpl in E.
    rewrite length_of_append in E. lia.
  - apply (f_equal String.length) in E. simpl in E.
    rewrite length_of_append in E. lia.
  - injection E as -> E. destruct (IH s2 E) as [-> ->]. now split.
Qed.

(** Cut both sides of the equation [E] between appended strings at the
    same distance from their ends: the left at [f1 ++ b1], the right at
    [f2 ++ b2]. *)
Ltac cut_both E f1 b1 f2 b2 :=
  match type of E with
  | ?l = ?r =>
      let C := fresh "C" in
      assert (C : f1 ++ b1 = f2 ++ b2)
        by (transitivity l;
            [ rewrite ?append_assoc_string; reflexivity
            | transitivity r;
              [ exact E | rewrite ?append_assoc_string; reflexivity ] ]);
      clear E; apply append_inj_right in C; [| reflexivity];
      rename C into E
  end.

Lemma containsGMT_append (value tail : string) :
  containsGMT value -> containsGMT (value ++ tail).
Proof.
  intros (pre & post & ->). exists pre, (post ++ tail).
  now rewrite !append_assoc_string.
Qed.

Lemma not_endsWithGMT_00 (value : string) : ~ endsWithGMT (value ++ "00").
Proof.
  intros [pre E].
  cut_both E (value ++ "0") "0" (pre ++ "GM") "T".
  destruct E as [_ E]. discriminate.
Qed.

Lemma endsWithGMTPlusFourDigits_00 (value : string) :
  endsWithGMTPlusFourDigits (value ++ "00") <->
  endsWithGMTSignTwoDigits "+" value.
Proof.
  split.
  - intros (pre & d1 & d2 & d3 & d4 & H1 & H2 & _ & _ & E).
    exists pre, d1, d2. split; [exact H1|]. split; [exact H2|].
    cut_both E value "00"
      (pre ++ "GMT" ++ String "+" (String d1 (String d2 "")))
      (String d3 (String d4 "")).
    now destruct E.
  - intros (pre & d1 & d2 & H1 & H2 & ->).
    exists pre, d1, d2, "0"%char, "0"%char. repeat split; try assumption.
    now rewrite !append_assoc_string.
Qed.

Lemma two_digit_offset_needs_suffix (sign : ascii) (value : string) :
  sign = "+"%char \/ sign = "-"%char ->
  endsWithGMTSignTwoDigits sign value ->
  containsGMT value /\ ~ endsWithGMTPlusFourDigits value
  /\ ~ endsWithGMT value.
Proof.
  intros Hsign (pre & d1 & d2 & H1 & H2 & ->). split; [|split].
  - now exists pre, (String sign (String d1 (String d2 ""))).
  - intros (pre' & e1 & e2 & e3 & e4 & _ & He2 & _ & _ & E).
    cut_both E (pre ++ "GMT") (String sign (String d1 (String d2 "")))
      (pre' ++ "GMT+" ++ String e1 "") (String e2 (String e3 (String e4 ""))).
    destruct E as [_ E]. injection E as E _ _.
    rewrite <- E in He2. destruct Hsign as [-> | ->]; discriminate.
  - intros [pre' E].
    cut_both E (pre ++ "GMT" ++ String sign (String d1 "")) (String d2 "")
      (pre' ++ "GM") "T".
    destruct E as [_ E]. injection E as E. rewrite E in H2. discriminate.
Qed.

Lemma not_two_digit_plus_of_minus (value : string) :
  endsWithGMTSignTwoDigits "-" value -> ~ endsWithGMTSignTwoDigits "+" value.
Proof.
  intros (pre & d1 & d2 & _ & _ & ->) (pre' & e1 & e2 & _ & _ & E).
  cut_both E (pre ++ "GMT") (String "-" (String d1 (String d2 "")))
    (pre' ++ "GMT") (String "+" (String e1 (String e2 ""))).
  destruct E as [_ E]. discriminate.
Qed.

(** After one "00" another one is appended unless the offset is now a
    positive four-digit one. *)
Lemma rfc2822Argument_after_suffix (value : string) :
  containsGMT value ->
  (endsWithGMTSignTwoDigits "+" value ->
   rfc2822Argument (value ++ "00") = value ++ "00")
  /\ (~ endsWithGMTSignTwoDigits "+" value ->
      rfc2822Argument (value ++ "00") = (value ++ "00") ++ "00").
Proof.
  intros Hgmt. split; intros Htwo.
  - destruct (rfc2822Argument_cases (value ++ "00")) as [E | E]; [|exact E].
    apply rfc2822Argument_appends_iff in E as (_ & Hfour & _).
    exfalso. apply Hfour. now apply endsWithGMTPlusFourDigits_00.
  - apply rfc2822Argument_appends_iff. split; [|split].
    + now apply containsGMT_append.
    + intros Hfour. apply Htwo. now apply endsWithGMTPlusFourDigits_00.
    + apply not_endsWithGMT_00.
Qed.

(** X1: a two-digit offset after "GMT", of either sign, is completed to
    four digits ("GMT+01" to "GMT+0100") before [Date.parse] is called;
    called on the completed string, the function leaves a positive offset
    as it is and appends a further "00" to a negative one. *)
Theorem parseDataFromRfc2822_two_digit_offset
    (Date_parse : string -> JsNumber.timeValue)
    (sign : ascii) (value : string) (h : heap) :
  sign = "+"%char \/ sign = "-"%char ->
  endsWithGMTSignTwoDigits sign value ->
  parseDataFromRfc2822 Date_parse value h
  = Normal (Date_parse (value ++ "00"), h)
  /\ (sign = "+"%char ->
      parseDataFromRfc2822 Date_parse (value ++ "00") h
      = Normal (Date_parse (value ++ "00"), h))
  /\ (sign = "-"%char ->
      parseDataFromRfc2822 Date_parse (value ++ "00") h
      = Normal (Date_parse (value ++ "0000"), h)).
Proof.
  intros Hsign Htwo.
  destruct (two_digit_offset_needs_suffix sign value Hsign Htwo)
    as (Hgmt & Hfour & Hend).
  destruct (rfc2822Argument_after_suffix value Hgmt) as [Hplus Hminus].
  rewrite !parseDataFromRfc2822_run.
  rewrite (proj2 (rfc2822Argument_appends_iff value)) by auto.
  split; [reflexivity|]. split; intros ->.
  - now rewrite Hplus.
  - rewrite Hminus by now apply not_two_digit_plus_of_minus.
    now rewrite append_assoc_string.
Qed.

(** The documented example, for a parser that knows the completed string. *)
Lemma parseDataFromRfc2822_two_digit_offset_witness :
  let Date_parse := fun s : string =>
    if String.eqb s "Sun, 17 May 1998 03:00:00 GMT+0100"
    then JsNumber.Time 895370400000 else JsNumber.NaN in
  parseDataFromRfc2822 Date_parse "Sun, 17 May 1998 03:00:00 GMT+01" []
  = Normal (JsNumber.Time 895370400000, []).
Proof.
  intros Date_parse.
  destruct (parseDataFromRfc2822_two_digit_offset Date_parse "+"
              "Sun, 17 May 1998 03:00:00 GMT+01" []) as [E _].
  - left. reflexivity.
  - exists "Sun, 17 May 1998 03:00:00 ", "0"%char, "1"%char.
    repeat split; reflexivity.
  - rewrite E. reflexivity.
Defined.

(** X2: the string handed to [Date.parse] is a fixed point of the
    function's rewriting exactly when nothing was appended to it or the
    input ended with "GMT+" and two digits. *)
Theorem rfc2822Argument_idempotent_iff (value : string) :
  rfc2822Argument (rfc2822Argument value) = rfc2822Argument value <->
  rfc2822Argument value = value \/ endsWithGMTSignTwoDigits "+" value.
Proof.
  destruct (rfc2822Argument_cases value) as [E | E].
  - pose proof (proj1 (rfc2822Argument_appends_iff value) E) as (Hgmt & _).
    destruct (rfc2822Argument_after_suffix value Hgmt) as [Hplus Hminus].
    rewrite E. split.
    + intros Hsame. right.
      apply endsWithGMTPlusFourDigits_00.
      destruct (JsString.test JsString.re_GMT_plus_offset_end (value ++ "00"))
        eqn:Htest; [now apply test_GMT_plus_offset_end_iff|].
      exfalso. apply (append_two_zeros_changes (value ++ "00")).
      rewrite <- Hsame at 2. symmetry. apply Hminus.
      intros Htwo. apply endsWithGMTPlusFourDigits_00 in Htwo.
      apply test_GMT_plus_offset_end_iff in Htwo. congruence.
    + intros [Hv | Htwo]; [now apply append_two_zeros_changes in Hv|].
      now apply Hplus.
  - rewrite E. split; [now left | intros _; exact E].
Qed.

(** ** parseDataFromRfc2822: offsets of four digits *)

(** C2 fails on the code at a negative offset of four digits.  The claim
    has "Sun, 17 May 1998 03:00:00 GMT-0100" handed to [Date.parse] as it
    is, "GMT" being followed by a four-digit offset already; the test
    [/GMT\+[0-9]{4}$/] of the source knows the sign "+" only, and the code
    hands over "... GMT-010000".  The same string with "+0100" is left as it
    is and the one with "-01" is completed to "-0100", as the claim has it;
    and what happens to "-0100" happens to every string that ends with
    "GMT-" and four digits. *)
Theorem parseDataFromRfc2822_negative_offset_lengthened :
  rfc2822Argument "Sun, 17 May 1998 03:00:00 GMT-0100"
  = "Sun, 17 May 1998 03:00:00 GMT-010000"
  /\ claimedAppendCondition "Sun, 17 May 1998 03:00:00 GMT-0100" = false
  /\ (forall (Date_parse : string -> JsNumber.timeValue) (h : heap),
        parseDataFromRfc2822 Date_parse "Sun, 17 May 1998 03:00:00 GMT-0100" h
        = Normal (Date_parse "Sun, 17 May 1998 03:00:00 GMT-010000", h))
  /\ rfc2822Argument "Sun, 17 May 1998 03:00:00 GMT+0100"
     = "Sun, 17 May 1998 03:00:00 GMT+0100"
  /\ rfc2822Argument "Sun, 17 May 1998 03:00:00 GMT-01"
     = "Sun, 17 May 1998 03:00:00 GMT-0100"
  /\ (forall (pre : string) (d1 d2 d3 d4 : ascii),
        JsString.isDigit d1 = true -> JsString.isDigit d2 = true ->
        JsString.isDigit d3 = true -> JsString.isDigit d4 = true ->
        let value :=
          pre ++ "GMT-" ++ String d1 (String d2 (String d3 (String d4 ""))) in
        rfc2822Argument value = value ++ "00"
        /\ claimedAppendCondition value = false).
Proof.
  split; [vm_compute; reflexivity|]. split; [vm_compute; reflexivity|].
  split; [intros Date_parse h; rewrite parseDataFromRfc2822_run;
          f_equal; f_equal; vm_compute; reflexivity|].
  split; [vm_compute; reflexivity|]. split; [vm_compute; reflexivity|].
  intros pre d1 d2 d3 d4 H1 H2 H3 H4 value.
  assert (Hgmt : containsGMT value)
    by (now exists pre,
          (String "-" (String d1 (String d2 (String d3 (String d4 "")))))).
  assert (Hend : ~ endsWithGMT value).
  { intros [pre' E]. subst value.
    cut_both E
      (pre ++ "GMT-" ++ String d1 (String d2 (String d3 ""))) (String d4 "")
      (pre' ++ "GM") "T".
    destruct E as [_ E]. injection E as E. rewrite E in H4. discriminate. }
  split.
  - apply rfc2822Argument_appends_iff. split; [exact Hgmt|].
    split; [|exact Hend].
    intros (pre' & e1 & e2 & e3 & e4 & _ & _ & _ & _ & E). subst value.
    cut_both E
      (pre ++ "GMT")
      (String "-" (String d1 (String d2 (String d3 (String d4 "")))))
      (pre' ++ "GMT")
      (String "+" (String e1 (String e2 (String e3 (String e4 ""))))).
    destruct E as [_ E]. discriminate.
  - unfold claimedAppendCondition.
    assert (Hsigned : JsString.test JsString.re_GMT_signed_offset value = true).
    { apply test_iff_suffix_matches.
      exists pre,
        ("GMT-" ++ String d1 (String d2 (String d3 (String d4 "")))).
      split; [reflexivity|]. cbn [String.append]. unfold_match.
      fold (JsString.isDigit d1) (JsString.isDigit d2)
           (JsString.isDigit d3) (JsString.isDigit d4).
      rewrite H1, H2, H3, H4. reflexivity. }
    rewrite Hsigned. cbn [negb]. now rewrite andb_false_r.
Qed.

(** ** timeSpanToString: what holds of every span *)

(** Rounding keeps the sign of the span. *)
Lemma roundToDouble_sign (z : Z) :
  (0 <= z -> 0 <= JsNumber.roundToDouble z)
  /\ (z < 0 -> JsNumber.roundToDouble z < 0).
Proof.
  unfold JsNumber.roundToDouble.
  destruct (Z.leb_spec (Z.abs z) (2 ^ 53)) as [Hsmall | Hbig]; [lia|].
  set (a := Z.abs z) in *. set (e := Z.log2 a - 52).
  assert (Ha : 0 < a) by lia.
  assert (Hlog : 53 <= Z.log2 a).
  { change 53 with (Z.log2 (2 ^ 53)). apply Z.log2_le_mono. lia. }
  destruct (Z.log2_spec a Ha) as [Hpow _].
  assert (He : 0 <= e <= Z.log2 a) by (unfold e; lia).
  assert (H2e : 0 < 2 ^ e) by (apply Z.pow_pos_nonneg; lia).
  assert (Hle : 2 ^ e <= a).
  { apply Z.le_trans with (2 ^ Z.log2 a); [|exact Hpow].
    apply Z.pow_le_mono_r; lia. }
  assert (Hq : 1 <= Z.shiftr a e).
  { rewrite Z.shiftr_div_pow2 by lia.
    apply Z.div_le_lower_bound; lia. }
  set (q' := if (2 ^ (e - 1) <? Z.land a (Z.ones e))
                || (Z.land a (Z.ones e) =? 2 ^ (e - 1)) && Z.odd (Z.shiftr a e)
             then Z.shiftr a e + 1 else Z.shiftr a e).
  assert (Hq' : 0 < q' * 2 ^ e).
  { apply Z.mul_pos_pos; [|exact H2e]. unfold q'.
    destruct (_ || _); lia. }
  split; intros Hz.
  - destruct (Z.eq_dec z 0) as [-> | Hnz]; [simpl in Ha; lia|].
    rewrite Z.sgn_pos by lia. lia.
  - rewrite Z.sgn_neg by lia. lia.
Qed.

Lemma sub_sign (tStart tEnd : Z) :
  (tStart <= tEnd -> 0 <= JsNumber.sub tEnd tStart)
  /\ (tEnd < tStart -> JsNumber.sub tEnd tStart < 0).
Proof.
  unfold JsNumber.sub.
  destruct (roundToDouble_sign (tEnd - tStart)) as [Hpos Hneg].
  split; intros H; [apply Hpos | apply Hneg]; lia.
Qed.

(** X3: for start <= end and a millisecond component of 0 or of 100 and
    more, timeSpanToString returns the duration string "HH:mm:ss.mmm" of the
    span: hours padded to two digits at least, minutes and seconds to two,
    milliseconds to three.  The span is the exact difference of the time
    values up to 2^53 ms. *)
Theorem timeSpanToString_formats_duration
    (h : heap) (startDate endDate : loc) (tStart tEnd : Z) :
  nth_error h startDate = Some tStart ->
  nth_error h endDate = Some tEnd ->
  tStart <= tEnd ->
  let span := JsNumber.sub tEnd tStart in
  span mod 1000 = 0 \/ 100 <= span mod 1000 ->
  timeSpanToString startDate endDate h
  = Normal (formatTimeSpanSpec span, (h ++ [tStart] ++ [tEnd])%list)
  /\ (tEnd - tStart <= 2 ^ 53 -> span = tEnd - tStart).
Proof.
  intros Hs He Hle span Hms.
  rewrite (timeSpanToString_run h startDate endDate _ _ Hs He). fold span.
  split.
  - rewrite formatSpan_is_spec; [reflexivity | | exact Hms].
    now apply sub_sign.
  - intros Hbound. apply roundToDouble_exact. lia.
Qed.

Lemma timeSpanToString_formats_duration_witness :
  timeSpanToString 0%nat 1%nat [949399200000; 949762810453]
  = Normal ("101:00:10.453",
            [949399200000; 949762810453; 949399200000; 949762810453]).
Proof.
  destruct (timeSpanToString_formats_duration
              [949399200000; 949762810453] 0%nat 1%nat
              949399200000 949762810453 eq_refl eq_refl) as [E _].
  - lia.
  - right. vm_compute. discriminate.
  - rewrite E. reflexivity.
Defined.

(** X4: for start <= end, whatever the milliseconds, the minutes and
    seconds fields are the two-digit minutes and seconds of the span: the
    output is a field without ":", then ":mm:ss.", then the milliseconds
    field. *)
Theorem timeSpanToString_minutes_seconds
    (h : heap) (startDate endDate : loc) (tStart tEnd : Z) :
  nth_error h startDate = Some tStart ->
  nth_error h endDate = Some tEnd ->
  tStart <= tEnd ->
  let span := JsNumber.sub tEnd tStart in
  let mm := zeroPad 2 ((span / 60000) mod 60) in
  let ss := zeroPad 2 ((span / 1000) mod 60) in
  exists hoursField msField,
    timeSpanToString startDate endDate h
    = Normal (hoursField ++ ":" ++ mm ++ ":" ++ ss ++ "." ++ msField,
              (h ++ [tStart] ++ [tEnd])%list)
    /\ colonFree hoursField = true
    /\ String.length mm = 2%nat /\ String.length ss = 2%nat.
Proof.
  intros Hs He Hle span mm ss.
  rewrite (timeSpanToString_run h startDate endDate _ _ Hs He). fold span.
  assert (Hspan : 0 <= span) by now apply sub_sign.
  destruct (fields_decompose span Hspan) as (Hsum & Hh & Hm & Hsec & Hmsr).
  unfold formatSpan.
  set (ms := Z.rem span 1000) in *.
  set (seconds := Z.quot (Z.rem span 60000 - ms) 1000) in *.
  set (minutes := Z.quot (Z.rem span 3600000 - seconds * 1000 - ms) 60000) in *.
  set (hours := Z.quot (span - Z.rem span 3600000) 3600000) in *.
  assert (Es : (span / 1000) mod 60 = seconds)
    by (clearbody hours minutes seconds ms;
        Z.to_euclidean_division_equations; lia).
  assert (Em : (span / 60000) mod 60 = minutes)
    by (clearbody hours minutes seconds ms;
        Z.to_euclidean_division_equations; lia).
  subst mm ss. rewrite Es, Em.
  rewrite (padded_two_digits minutes), (padded_two_digits seconds) by lia.
  destruct (lengths_below_100 minutes ltac:(lia)) as (_ & Hm2 & _).
  destruct (lengths_below_100 seconds ltac:(lia)) as (_ & Hs2 & _).
  pose proof (padded_two_digits hours Hh) as Hhours.
  destruct (msBranchOf ms); cbn [ToString] in *;
    eexists _, _; (split; [reflexivity|]); (split; [|split; assumption]).
  - rewrite Hhours. apply colonFree_zeroPad.
  - simpl. apply colonFree_toString.
  - simpl. apply colonFree_toString.
  - rewrite Hhours. apply colonFree_zeroPad.
Qed.

Lemma timeSpanToString_minutes_seconds_witness :
  exists hoursField msField,
    timeSpanToString 0%nat 1%nat [949399200000; 949418410007]
    = Normal (hoursField ++ ":" ++ "20" ++ ":" ++ "10" ++ "." ++ msField,
              [949399200000; 949418410007; 949399200000; 949418410007])
    /\ colonFree hoursField = true
    /\ String.length "20" = 2%nat /\ String.length "10" = 2%nat.
Proof.
  apply (timeSpanToString_minutes_seconds
           [949399200000; 949418410007] 0%nat 1%nat
           949399200000 949418410007 eq_refl eq_refl).
  lia.
Defined.

(** With a millisecond component between 1 and 99 the hours of the span do
    not reach the output. *)
Lemma formatSpan_forgets_hours (span k : Z) :
  0 <= span -> 0 <= k -> 1 <= span mod 1000 <= 99 ->
  formatSpan (span + k * 3600000) = formatSpan span.
Proof.
  intros Hspan Hk Hms.
  assert (Hrem : Z.rem span 1000 = span mod 1000)
    by (apply Z.rem_mod_nonneg; lia).
  unfold formatSpan, msBranchOf.
  assert (E1 : Z.rem (span + k * 3600000) 1000 = Z.rem span 1000)
    by (Z.to_euclidean_division_equations; lia).
  assert (E2 : Z.rem (span + k * 3600000) 60000 = Z.rem span 60000)
    by (Z.to_euclidean_division_equations; lia).
  assert (E3 : Z.rem (span + k * 3600000) 3600000 = Z.rem span 3600000)
    by (Z.to_euclidean_division_equations; lia).
  rewrite E1, E2, E3, Hrem.
  destruct (Z.eqb_spec (span mod 1000) 0); [lia|].
  destruct (Z.ltb_spec (span mod 1000) 100); [|lia].
  reflexivity.
Qed.

(** X5: with a millisecond component between 1 and 99, two spans from the
    same start that differ by whole hours are printed alike: the hours are
    lost from the output. *)
Theorem timeSpanToString_hours_lost
    (h : heap) (startDate endDate laterDate : loc) (tStart tEnd k : Z) :
  nth_error h startDate = Some tStart ->
  nth_error h endDate = Some tEnd ->
  nth_error h laterDate = Some (tEnd + k * 3600000) ->
  tStart <= tEnd -> 0 <= k ->
  tEnd + k * 3600000 - tStart <= 2 ^ 53 ->
  1 <= (tEnd - tStart) mod 1000 <= 99 ->
  exists output h1 h2,
    timeSpanToString startDate endDate h = Normal (output, h1)
    /\ timeSpanToString startDate laterDate h = Normal (output, h2).
Proof.
  intros Hs He Hl Hle Hk Hbound Hms.
  rewrite (timeSpanToString_run h startDate endDate _ _ Hs He).
  rewrite (timeSpanToString_run h startDate laterDate _ _ Hs Hl).
  unfold JsNumber.sub. rewrite !roundToDouble_exact by lia.
  replace (tEnd + k * 3600000 - tStart) with (tEnd - tStart + k * 3600000)
    by ring.
  rewrite formatSpan_forgets_hours by lia.
  eexists _, _, _. split; reflexivity.
Qed.

(** 50 ms and 1 h 0.050 s after the epoch. *)
Lemma timeSpanToString_hours_lost_witness :
  exists output h1 h2,
    timeSpanToString 0%nat 1%nat [0; 50; 3600050] = Normal (output, h1)
    /\ timeSpanToString 0%nat 2%nat [0; 50; 3600050] = Normal (output, h2).
Proof.
  apply (timeSpanToString_hours_lost [0; 50; 3600050] 0%nat 1%nat 2%nat
           0 50 1); try reflexivity; try lia.
  vm_compute. split; discriminate.
Defined.

(** A negative Number prints with a leading "-". *)
Lemma toString_negative (n : Z) :
  n < 0 -> exists digits, JsNumber.toString n = String "-" digits.
Proof.
  intros Hn. destruct n as [|p|p]; try lia.
  unfold JsNumber.toString. simpl. eexists. reflexivity.
Qed.

(** X6: for end < start the output is no duration string: one of its
    fields holds a "-". *)
Theorem timeSpanToString_negative_span
    (h : heap) (startDate endDate : loc) (tStart tEnd : Z) :
  nth_error h startDate = Some tStart ->
  nth_error h endDate = Some tEnd ->
  tEnd < tStart ->
  exists pre post,
    timeSpanToString startDate endDate h
    = Normal (pre ++ "-" ++ post, (h ++ [tStart] ++ [tEnd])%list).
Proof.
  intros Hs He Hlt.
  rewrite (timeSpanToString_run h startDate endDate _ _ Hs He).
  assert (Hspan : JsNumber.sub tEnd tStart < 0) by now apply sub_sign.
  set (span := JsNumber.sub tEnd tStart) in *.
  unfold formatSpan, msBranchOf.
  set (ms := Z.rem span 1000).
  set (seconds := Z.quot (Z.rem span 60000 - ms) 1000).
  set (minutes := Z.quot (Z.rem span 3600000 - seconds * 1000 - ms) 60000).
  set (hours := Z.quot (span - Z.rem span 3600000) 3600000).
  assert (Hfields : ms <= 0 /\ seconds <= 0 /\ minutes <= 0 /\ hours <= 0
                    /\ (ms < 0 \/ seconds < 0 \/ minutes < 0 \/ hours < 0)).
  { subst ms seconds minutes hours.
    Z.to_euclidean_division_equations. lia. }
  destruct Hfields as (Hms & Hsec & Hmin & Hhr & Hsome).
  clearbody ms seconds minutes hours.
  destruct (Z.eqb_spec ms 0) as [Hms0 | Hms0].
  - destruct (Z.eqb_spec hours 0) as [Hh0 | Hh0].
    + destruct (Z.eqb_spec minutes 0) as [Hm0 | Hm0].
      * destruct (Z.eqb_spec seconds 0) as [Hs0 | Hs0]; [lia|].
        destruct (Z.ltb_spec seconds 10); [|lia].
        destruct (toString_negative seconds ltac:(lia)) as [d Hd].
        cbn [ToString]. rewrite Hd. eexists "00:00:0", _. reflexivity.
      * destruct (Z.ltb_spec minutes 10); [|lia].
        destruct (toString_negative minutes ltac:(lia)) as [d Hd].
        cbn [ToString]. rewrite Hd. eexists "00:0", _. reflexivity.
    + destruct (Z.ltb_spec hours 10); [|lia].
      destruct (toString_negative hours ltac:(lia)) as [d Hd].
      cbn [ToString]. rewrite Hd. eexists "0", _. reflexivity.
  - destruct (Z.ltb_spec ms 100); [|lia].
    destruct (toString_negative ms ltac:(lia)) as [d Hd].
    cbn [ToString]. rewrite Hd. eexists "0", _. reflexivity.
Qed.

(** One hour before the start. *)
Lemma timeSpanToString_negative_span_witness :
  exists pre post,
    timeSpanToString 0%nat 1%nat [3600000; 0]
    = Normal (pre ++ "-" ++ post, [3600000; 0; 3600000; 0]).
Proof.
  apply (timeSpanToString_negative_span [3600000; 0] 0%nat 1%nat 3600000 0);
    try reflexivity.
Defined.

(** ** timeSpanToString: the output determines the span *)

Lemma decimalValue_toString (n : Z) :
  0 <= n -> decimalValue (JsNumber.toString n) = Some n.
Proof.
  intros Hn. unfold decimalValue, JsNumber.toString.
  pose proof (DecimalZ.of_to n) as Hof.
  destruct (Z.to_int n) as [u | u] eqn:Hu.
  - destruct u; [now rewrite <- Hof | ..];
      cbn [NilZero.string_of_int NilZero.string_of_uint];
      rewrite NilEmpty.usu; simpl; now rewrite <- Hof.
  - destruct n; try lia; discriminate.
Qed.

Lemma decimalValue_zeros (k : nat) (s : string) (n : Z) :
  decimalValue s = Some n -> decimalValue (zeros k ++ s) = Some n.
Proof.
  intros Hs. induction k as [|k IH]; [exact Hs|].
  unfold decimalValue in *. simpl.
  destruct (NilEmpty.uint_of_string (zeros k ++ s)); [|discriminate].
  exact IH.
Qed.

Lemma decimalValue_zeroPad (width : nat) (n : Z) :
  0 <= n -> decimalValue (zeroPad width n) = Some n.
Proof.
  intros Hn. unfold zeroPad.
  now apply decimalValue_zeros, decimalValue_toString.
Qed.

Lemma zeroPad_injective (width : nat) (n m : Z) :
  0 <= n -> 0 <= m -> zeroPad width n = zeroPad width m -> n = m.
Proof.
  intros Hn Hm E. apply (f_equal decimalValue) in E.
  rewrite !decimalValue_zeroPad in E by assumption. congruence.
Qed.

Lemma zeroPad_3_length (n : Z) :
  0 <= n < 1000 -> String.length (zeroPad 3 n) = 3%nat.
Proof.
  intros Hn.
  assert (Hall : forallb (fun k => (String.length (zeroPad 3 (Z.of_nat k))
                                    =? 3)%nat) (seq 0 1000) = true)
    by (vm_compute; reflexivity).
  assert (Hin : In (Z.to_nat n) (seq 0 1000)) by (apply in_seq; lia).
  apply (proj1 (forallb_forall _ _) Hall) in Hin.
  rewrite Z2Nat.id in Hin by lia. now apply Nat.eqb_eq.
Qed.

(** The duration string of the specification determines the span. *)
Lemma formatTimeSpanSpec_injective (span1 span2 : Z) :
  0 <= span1 -> 0 <= span2 ->
  formatTimeSpanSpec span1 = formatTimeSpanSpec span2 -> span1 = span2.
Proof.
  intros H1 H2 E. unfold formatTimeSpanSpec in E.
  assert (Hm1 : 0 <= (span1 / 60000) mod 60 < 60) by (apply Z.mod_pos_bound; lia).
  assert (Hm2 : 0 <= (span2 / 60000) mod 60 < 60) by (apply Z.mod_pos_bound; lia).
  assert (Hs1 : 0 <= (span1 / 1000) mod 60 < 60) by (apply Z.mod_pos_bound; lia).
  assert (Hs2 : 0 <= (span2 / 1000) mod 60 < 60) by (apply Z.mod_pos_bound; lia).
  assert (Hms1 : 0 <= span1 mod 1000 < 1000) by (apply Z.mod_pos_bound; lia).
  assert (Hms2 : 0 <= span2 mod 1000 < 1000) by (apply Z.mod_pos_bound; lia).
  assert (Hh1 : 0 <= span1 / 3600000) by (apply Z.div_pos; lia).
  assert (Hh2 : 0 <= span2 / 3600000) by (apply Z.div_pos; lia).
  apply cut_at_first_colon in E as [Eh E]; try apply colonFree_zeroPad.
  apply cut_at_first_colon in E as [Em E]; try apply colonFree_zeroPad.
  pose proof (zeroPad_3_length _ Hms1) as L1.
  pose proof (zeroPad_3_length _ Hms2) as L2.
  change (zeroPad 2 ((span1 / 1000) mod 60) ++ String "." (zeroPad 3 (span1 mod 1000))
          = zeroPad 2 ((span2 / 1000) mod 60) ++ String "." (zeroPad 3 (span2 mod 1000))) in E.
  apply append_inj_right in E as [Es Ems]; [| simpl; lia ].
  injection Ems as Ems.
  apply zeroPad_injective in Eh, Em, Es, Ems; try lia.
  Z.to_euclidean_division_equations. lia.
Qed.

(** X7: for start <= end and millisecond components of 0 or of 100 and
    more, the output determines the span: two calls that return the same
    string were given the same span. *)
Theorem timeSpanToString_injective
    (h : heap) (start1 end1 start2 end2 : loc) (tS1 tE1 tS2 tE2 : Z)
    (output : string) (h1 h2 : heap) :
  nth_error h start1 = Some tS1 -> nth_error h end1 = Some tE1 ->
  nth_error h start2 = Some tS2 -> nth_error h end2 = Some tE2 ->
  tS1 <= tE1 -> tS2 <= tE2 ->
  let span1 := JsNumber.sub tE1 tS1 in
  let span2 := JsNumber.sub tE2 tS2 in
  span1 mod 1000 = 0 \/ 100 <= span1 mod 1000 ->
  span2 mod 1000 = 0 \/ 100 <= span2 mod 1000 ->
  timeSpanToString start1 end1 h = Normal (output, h1) ->
  timeSpanToString start2 end2 h = Normal (output, h2) ->
  span1 = span2.
Proof.
  intros HS1 HE1 HS2 HE2 Hle1 Hle2 span1 span2 Hms1 Hms2 R1 R2.
  rewrite (timeSpanToString_run h start1 end1 _ _ HS1 HE1) in R1.
  rewrite (timeSpanToString_run h start2 end2 _ _ HS2 HE2) in R2.
  fold span1 in R1. fold span2 in R2.
  assert (Hp1 : 0 <= span1) by now apply sub_sign.
  assert (Hp2 : 0 <= span2) by now apply sub_sign.
  rewrite formatSpan_is_spec in R1, R2 by assumption.
  apply formatTimeSpanSpec_injective; try assumption.
  congruence.
Qed.

Lemma timeSpanToString_injective_witness :
  JsNumber.sub 949418410453 949399200000 = JsNumber.sub 19210453 0.
Proof.
  apply (timeSpanToString_injective
           [949399200000; 949418410453; 0; 19210453]
           0%nat 1%nat 2%nat 3%nat
           949399200000 949418410453 0 19210453
           "05:20:10.453"
           [949399200000; 949418410453; 0; 19210453;
            949399200000; 949418410453]
           [949399200000; 949418410453; 0; 19210453; 0; 19210453]);
    try reflexivity; try lia; right; vm_compute; discriminate.
Defined.

(** ** isLeapYear and the calendar of [Date] *)

(** X8: isLeapYear answers true exactly when the local year of the date has
    366 days in the calendar of [Date] time values, and false exactly when
    it has 365. *)
Theorem isLeapYear_iff_366_days
    (LocalTZA : Z -> Z) (h : heap) (date : loc) (t : Z) :
  nth_error h date = Some t ->
  let Y := JsTime.YearFromTime (LocalTime LocalTZA t) in
  let days := JsTime.DayFromYear (Y + 1) - JsTime.DayFromYear Y in
  exists b,
    isLeapYear LocalTZA date h = Normal (b, (h ++ [t])%list)
    /\ (b = true <-> days = 366)
    /\ (b = false <-> days = 365).
Proof.
  intros Hd Y days. eexists. split.
  - rewrite (isLeapYear_run LocalTZA h date t Hd). fold Y. reflexivity.
  - clearbody Y. subst days. unfold JsTime.DayFromYear.
    set (days := _ - _).
    destruct (Z.eqb_spec (Z.rem Y 400) 0), (Z.eqb_spec (Z.rem Y 100) 0),
             (Z.eqb_spec (Z.rem Y 4) 0); cbn [orb andb negb].
    all: try (exfalso; clear days; Z.to_euclidean_division_equations; lia).
    all: try (assert (Hdays : days = 366)
                by (subst days; Z.to_euclidean_division_equations; lia)).
    all: try (assert (Hdays : days = 365)
                by (subst days; Z.to_euclidean_division_equations; lia)).
    all: rewrite Hdays; (split; split; intros E).
    all: first [reflexivity | discriminate E].
Qed.

(** 1 February 2000 (UTC): a year of 366 days. *)
Lemma isLeapYear_iff_366_days_witness :
  isLeapYear (fun _ => 0) 0%nat [949363200000]
  = Normal (true, [949363200000; 949363200000]).
Proof.
  destruct (isLeapYear_iff_366_days (fun _ => 0) [949363200000] 0%nat
              949363200000 eq_refl) as (b & Hrun & H366 & _).
  rewrite Hrun. rewrite (proj2 H366); reflexivity.
Defined.

(** ** angleBetweenClockHands: what the result depends on *)

(** X9: the result depends on the instant only through its minute within
    the half day: seconds and milliseconds are ignored, and twelve hours
    later the result is the same.  This holds of the doubles and of any
    other reading of the arithmetic. *)
Theorem angleBetweenClockHands_minute_of_half_day
    {A : Type} `{Arith A} (h : heap) (date1 date2 : loc) (t1 t2 : Z) :
  nth_error h date1 = Some t1 ->
  nth_error h date2 = Some t2 ->
  (t1 / 60000) mod 720 = (t2 / 60000) mod 720 ->
  angleBetweenClockHands date1 h = angleBetweenClockHands date2 h.
Proof.
  intros H1 H2 E.
  rewrite (angleBetweenClockHands_run h date1 t1 H1).
  rewrite (angleBetweenClockHands_run h date2 t2 H2).
  unfold clockAngle.
  assert (Em : JsTime.MinFromTime t1 = JsTime.MinFromTime t2)
    by (unfold JsTime.MinFromTime, JsTime.msPerMinute;
        Z.to_euclidean_division_equations; lia).
  assert (Eh : Z.rem (JsTime.HourFromTime t1) 12
               = Z.rem (JsTime.HourFromTime t2) 12)
    by (unfold JsTime.HourFromTime, JsTime.msPerHour;
        Z.to_euclidean_division_equations; lia).
  now rewrite Em, Eh.
Qed.

(** 03:00:00.000 and 15:00:59.999 UTC on 5 April 2016. *)
Lemma angleBetweenClockHands_minute_of_half_day_witness :
  angleBetweenClockHands (A := float) 0%nat [1459825200000; 1459868459999]
  = angleBetweenClockHands (A := float) 1%nat [1459825200000; 1459868459999].
Proof.
  apply (angleBetweenClockHands_minute_of_half_day
           [1459825200000; 1459868459999] 0%nat 1%nat
           1459825200000 1459868459999); reflexivity.
Defined.

Lemma doubleExtremes_checked : forallb doubleExtremesCheck clockTimes = true.
Proof. vm_compute. reflexivity. Qed.

(** X10: the double returned is equal ([===]) to 0 exactly at 0:00 and
    12:00 UTC, and to [Math.PI] exactly at 6:00 and 18:00 UTC; the value in
    exact arithmetic is 0 and pi at those times only. *)
Theorem angleBetweenClockHands_extremes (h : heap) (date : loc) (t : Z) :
  nth_error h date = Some t ->
  let hours := JsTime.HourFromTime t in
  let minutes := JsTime.MinFromTime t in
  exists (r : float) (x : R),
    angleBetweenClockHands (A := float) date h = Normal (r, h)
    /\ angleBetweenClockHands (A := R) date h = Normal (x, h)
    /\ (PrimFloat.eqb r 0%float = true <-> hours mod 12 = 0 /\ minutes = 0)
    /\ (PrimFloat.eqb r Double.PI = true <-> hours mod 12 = 6 /\ minutes = 0)
    /\ (x = 0%R <-> hours mod 12 = 0 /\ minutes = 0)
    /\ (x = PI <-> hours mod 12 = 6 /\ minutes = 0).
Proof.
  intros Hd hours minutes.
  rewrite !(angleBetweenClockHands_run h date t Hd). fold hours minutes.
  pose proof (HourFromTime_range t) as Hh.
  pose proof (MinFromTime_range t) as Hm. fold hours in Hh. fold minutes in Hm.
  clearbody hours minutes.
  assert (Hrem : Z.rem hours 12 = hours mod 12)
    by (apply Z.rem_mod_nonneg; lia).
  eexists _, _. split; [reflexivity|]. split; [reflexivity|].
  pose proof (proj1 (forallb_forall _ _) doubleExtremes_checked _
                (clockTimes_complete hours minutes Hh Hm)) as Hc.
  unfold doubleExtremesCheck in Hc.
  apply andb_prop in Hc as [H0 Hpi].
  apply eqb_prop in H0, Hpi. rewrite Hrem in H0, Hpi.
  assert (Hcond : forall k, (hours mod 12 =? k) && (minutes =? 0) = true
                            <-> hours mod 12 = k /\ minutes = 0)
    by (intros k; now rewrite andb_true_iff, !Z.eqb_eq).
  split; [rewrite H0; apply Hcond|]. split; [rewrite Hpi; apply Hcond|].
  rewrite clockAngle_real_closed_form.
  pose proof PI_RGT_0 as Hpos.
  assert (Hk0 : halfDegrees hours minutes = 0
                <-> hours mod 12 = 0 /\ minutes = 0).
  { unfold halfDegrees. rewrite Hrem.
    destruct (Z.ltb_spec 360 (Z.abs (60 * (hours mod 12) - 11 * minutes)));
      Z.to_euclidean_division_equations; lia. }
  assert (Hk360 : halfDegrees hours minutes = 360
                  <-> hours mod 12 = 6 /\ minutes = 0).
  { unfold halfDegrees. rewrite Hrem.
    destruct (Z.ltb_spec 360 (Z.abs (60 * (hours mod 12) - 11 * minutes)));
      Z.to_euclidean_division_equations; lia. }
  rewrite <- Hk0, <- Hk360. split; split.
  - intros E. apply eq_IZR. nra.
  - intros ->. lra.
  - intros E. apply eq_IZR. nra.
  - intros ->. lra.
Qed.

(** 5 April 2016, 18:00 UTC: the hands are opposite. *)
Lemma angleBetweenClockHands_extremes_witness :
  exists r : float,
    angleBetweenClockHands (A := float) 0%nat [1459879200000]
    = Normal (r, [1459879200000])
    /\ PrimFloat.eqb r Double.PI = true.
Proof.
  destruct (angleBetweenClockHands_extremes [1459879200000] 0%nat
              1459879200000 eq_refl) as (r & x & Hr & _ & _ & Hpi & _).
  exists r. split; [exact Hr|]. apply Hpi. split; reflexivity.
Defined.
